(** * LedgerLoop finance API: forecast and autopilot rules

    A shallow embedding of [services/api/src/routes/finance.ts]: the zod
    schemas of the POST handlers, the Prisma queries they issue, and the
    arithmetic of the [/forecast] handler.

    Numbers.  A JavaScript [number] that reaches these handlers comes from a
    JSON body or from a REAL column; it is modelled as an exact rational
    ([Q], compared with [==]).  The rounding of IEEE-754 binary64 is outside
    this model, and so are JSON numerals too large for a double: what is
    proved of sums, products and quotients is proved of the exact values,
    and the statements say so.  Module [Binary64] replays the handler's
    arithmetic on primitive floats; it evaluates the seeded account and
    the inputs on which rounding separates the handler from the exact
    reading.  Division is only ever by [Math.max(length, 1)], which is
    positive, so the total division of [Q] agrees with the handler's.

    Strings.  A string is held as the bytes of its UTF-8 text; lengths
    that zod or a handler compares are JavaScript lengths ([js_length]). *)

From Stdlib Require Import List String Ascii Bool Arith ZArith QArith Qround Qabs Qminmax Lia Lqa.
From Stdlib Require Import Setoid Morphisms Sorted Permutation.
From Stdlib Require PrimFloat Uint63.
Import ListNotations.
Open Scope Q_scope.

(** ** Numbers *)

(** [x < y] of two numbers, as a boolean. *)
Definition Qltb (x y : Q) : bool :=
  (Qnum x * QDen y <? Qnum y * QDen x)%Z.

(** [x <= y] is [Qle_bool x y] of the library. *)

(** [Number.isInteger(x)]: the reduced fraction has denominator one. *)
Definition isInteger (x : Q) : bool :=
  Pos.eqb (Qden (Qred x)) 1.

(** [Math.max(n, 1)] of an array length, as a number. *)
Definition max_len_1 {A : Type} (l : list A) : Q :=
  inject_Z (Z.of_nat (Nat.max (List.length l) 1)).

(** ** Prisma models (the columns of the migration) *)

Inductive AccountType : Type :=
  CHECKING | SAVINGS | CREDIT | CASH | INVESTMENT.

Record Transaction : Type := mkTransaction {
  tx_id : string;
  tx_description : string;
  amount : Q;
  tx_category : string;
  occurredAt : string;
  tx_accountId : string
}.

Record AutopilotRule : Type := mkAutopilotRule {
  rule_id : string;
  rule_name : string;
  percentage : Q;
  rule_destination : string;
  active : bool;
  rule_ownerId : string;
  rule_accountId : option string
}.

Record FinanceAccount : Type := mkFinanceAccount {
  acct_id : string;
  acct_name : string;
  acct_type : AccountType;
  acct_currency : string;
  balance : Q;
  acct_ownerId : string
}.

(** [FinanceAccount & { transactions: Transaction[]; autopilotRules:
    AutopilotRule[] }]: what [findMany] with [include] hands to the
    forecast. *)
Record AccountGraph : Type := mkAccountGraph {
  account : FinanceAccount;
  transactions : list Transaction;
  autopilotRules : list AutopilotRule
}.

(** One element of the [forecast] array of the response. *)
Record ForecastRow : Type := mkForecastRow {
  row_accountId : string;
  row_balance : Q;
  row_projected : Q;
  row_horizonDays : Q;
  row_autopilot : Q
}.

(** ** The forecast arithmetic (the callback of [accounts.map])

    The expressions of the callback, term by term, read on exact
    numbers; [Binary64] below has the same expressions on doubles. *)

Definition inflows (a : AccountGraph) : Q :=
  fold_left (fun (sum : Q) (t : Transaction) => sum + amount t)
            (filter (fun t => Qltb 0 (amount t)) (transactions a)) 0.

Definition outflows (a : AccountGraph) : Q :=
  fold_left (fun (sum : Q) (t : Transaction) => sum + amount t)
            (filter (fun t => Qltb (amount t) 0) (transactions a)) 0.

(** The accumulator of the [autopilotRules.reduce]. *)
Definition autopilot_step (bal : Q) (sum : Q) (rule : AutopilotRule) : Q :=
  if negb (active rule) then sum
  else sum + bal * percentage rule.

Definition autopilot (a : AccountGraph) : Q :=
  fold_left (autopilot_step (balance (account a))) (autopilotRules a) 0.

Definition netPerTransaction (a : AccountGraph) : Q :=
  (inflows a + outflows a) / max_len_1 (transactions a).

Definition projected (horizonDays : Q) (a : AccountGraph) : Q :=
  balance (account a)
  + ((inflows a + outflows a) / max_len_1 (transactions a)) * horizonDays
  - autopilot a.

Definition forecast_row (horizonDays : Q) (a : AccountGraph) : ForecastRow :=
  {| row_accountId := acct_id (account a);
     row_balance := balance (account a);
     row_projected := projected horizonDays a;
     row_horizonDays := horizonDays;
     row_autopilot := autopilot a |}.

(** ** Request bodies and the zod schemas *)

(** A parsed JSON value.  Arrays and nested objects never pass one of the
    schemas below, so their contents are not kept. *)
Inductive jsval : Type :=
| JNull
| JBool (b : bool)
| JNumber (x : Q)
| JString (s : string)
| JCompound.

(** A parsed JSON object; a key that is absent reads as [undefined]. *)
Definition jsobject : Type := list (string * jsval).

Fixpoint lookup (key : string) (o : jsobject) : option jsval :=
  match o with
  | [] => None
  | (k, v) :: rest => if String.eqb k key then Some v else lookup key rest
  end.

(** [req.body] after [express.json()]. *)
Inductive Body : Type :=
| NoBody
| ObjectBody (o : jsobject)
| ArrayBody.

(** The outcome of [schema.parse]: the parsed data, or a [ZodError] whose
    issues are recorded by the path of the offending key. *)
Inductive parsed (A : Type) : Type :=
| ZOk (data : A)
| ZodError (issues : list string).
Arguments ZOk {A} data.
Arguments ZodError {A} issues.

Definition issue {A : Type} (path : string) (r : option A) : list string :=
  match r with Some _ => [] | None => [path] end.

(** Field schemas: [None] is an issue on the field. *)
Definition z_string (v : option jsval) : option string :=
  match v with Some (JString s) => Some s | _ => None end.

(** [s.length] of JavaScript.  A string is held as the bytes of its UTF-8
    text, and JavaScript counts UTF-16 code units: a continuation byte
    (128-191) adds none, the lead byte of a four-byte sequence (240 and
    above) adds two, for a surrogate pair, and every other byte adds
    one. *)
Definition utf16_units (c : ascii) : nat :=
  let n := nat_of_ascii c in
  if ((128 <=? n) && (n <=? 191))%nat then 0%nat
  else if (240 <=? n)%nat then 2%nat
  else 1%nat.

Fixpoint js_length (s : string) : nat :=
  match s with
  | EmptyString => 0%nat
  | String c rest => (utf16_units c + js_length rest)%nat
  end.

(** [z.string().min(n)]; zod compares [n] with [s.length]. *)
Definition z_string_min (n : nat) (v : option jsval) : option string :=
  match v with
  | Some (JString s) => if (n <=? js_length s)%nat then Some s else None
  | _ => None
  end.

Definition z_boolean (v : option jsval) : option bool :=
  match v with Some (JBool b) => Some b | _ => None end.

Definition z_optional {A : Type} (inner : option jsval -> option A)
    (v : option jsval) : option (option A) :=
  match v with
  | None => Some None
  | Some _ => option_map Some (inner v)
  end.

(** [z.number().min(0).max(1)] *)
Definition z_percentage (v : option jsval) : option Q :=
  match v with
  | Some (JNumber x) =>
      if Qle_bool 0 x && Qle_bool x 1 then Some x else None
  | _ => None
  end.

(** [z.number().int().positive().max(180).default(30)] *)
Definition z_horizonDays (v : option jsval) : option Q :=
  match v with
  | None => Some 30
  | Some (JNumber x) =>
      if isInteger x && Qltb 0 x && Qle_bool x 180 then Some x else None
  | Some _ => None
  end.

(** The schema of the [/forecast] body, applied to [req.body ?? {}]. *)
Definition forecastSchema (body : Body) : parsed Q :=
  match body with
  | ArrayBody => ZodError [""%string]
  | NoBody =>
      match z_horizonDays None with
      | Some h => ZOk h
      | None => ZodError ["horizonDays"%string]
      end
  | ObjectBody o =>
      match z_horizonDays (lookup "horizonDays" o) with
      | Some h => ZOk h
      | None => ZodError ["horizonDays"%string]
      end
  end.

Record RuleData : Type := mkRuleData {
  data_accountId : option string;
  data_name : string;
  data_percentage : Q;
  data_destination : string;
  data_active : option bool
}.

Definition ruleSchema (body : Body) : parsed RuleData :=
  match body with
  | ObjectBody o =>
      let accountId := z_optional z_string (lookup "accountId" o) in
      let name := z_string_min 3 (lookup "name" o) in
      let pct := z_percentage (lookup "percentage" o) in
      let destination := z_string (lookup "destination" o) in
      let act := z_optional z_boolean (lookup "active" o) in
      match accountId, name, pct, destination, act with
      | Some i, Some n, Some p, Some d, Some a =>
          ZOk {| data_accountId := i; data_name := n; data_percentage := p;
                 data_destination := d; data_active := a |}
      | _, _, _, _, _ =>
          ZodError (issue "accountId" accountId ++ issue "name" name
                    ++ issue "percentage" pct
                    ++ issue "destination" destination
                    ++ issue "active" act)
      end
  | _ => ZodError [""%string]
  end.

(** The fields of a rule body other than the percentage pass their
    schemas. *)
Definition other_fields_ok (o : jsobject) (i : option string) (n d : string)
    (a : option bool) : Prop :=
  z_optional z_string (lookup "accountId" o) = Some i
  /\ z_string_min 3 (lookup "name" o) = Some n
  /\ z_string (lookup "destination" o) = Some d
  /\ z_optional z_boolean (lookup "active" o) = Some a.

(** [z.number()] *)
Definition z_number (v : option jsval) : option Q :=
  match v with Some (JNumber x) => Some x | _ => None end.

(** [z.string().min(lo).max(hi)] *)
Definition z_string_min_max (lo hi : nat) (v : option jsval) : option string :=
  match v with
  | Some (JString s) =>
      if ((lo <=? js_length s) && (js_length s <=? hi))%nat
      then Some s else None
  | _ => None
  end.

(** [z.enum(['CHECKING', 'SAVINGS', 'CREDIT', 'CASH', 'INVESTMENT'])] *)
Definition z_accountType (v : option jsval) : option AccountType :=
  match v with
  | Some (JString s) =>
      if String.eqb s "CHECKING" then Some CHECKING
      else if String.eqb s "SAVINGS" then Some SAVINGS
      else if String.eqb s "CREDIT" then Some CREDIT
      else if String.eqb s "CASH" then Some CASH
      else if String.eqb s "INVESTMENT" then Some INVESTMENT
      else None
  | _ => None
  end.

Record AccountData : Type := mkAccountData {
  data_acct_name : string;
  data_type : AccountType;
  data_currency : string;
  data_balance : Q
}.

Definition accountSchema (body : Body) : parsed AccountData :=
  match body with
  | ObjectBody o =>
      let name := z_string_min 3 (lookup "name" o) in
      let type := z_accountType (lookup "type" o) in
      let currency := z_string_min_max 3 10 (lookup "currency" o) in
      let bal := z_number (lookup "balance" o) in
      match name, type, currency, bal with
      | Some n, Some t, Some c, Some b =>
          ZOk {| data_acct_name := n; data_type := t; data_currency := c;
                 data_balance := b |}
      | _, _, _, _ =>
          ZodError (issue "name" name ++ issue "type" type
                    ++ issue "currency" currency ++ issue "balance" bal)
      end
  | _ => ZodError [""%string]
  end.

(** ** The store and the Prisma calls of the two handlers *)

Record Db : Type := mkDb {
  financeAccount : list FinanceAccount;
  transaction : list Transaction;
  autopilotRule : list AutopilotRule
}.

Definition linked (a : FinanceAccount) (r : AutopilotRule) : bool :=
  match rule_accountId r with
  | Some i => String.eqb i (acct_id a)
  | None => false
  end.

(** [prisma.financeAccount.findMany({ where: { ownerId }, include:
    { transactions: true, autopilotRules: true } })] *)
Definition findMany (db : Db) (ownerId : string) : list AccountGraph :=
  map (fun a =>
         {| account := a;
            transactions :=
              filter (fun t => String.eqb (tx_accountId t) (acct_id a))
                     (transaction db);
            autopilotRules := filter (linked a) (autopilotRule db) |})
      (filter (fun a => String.eqb (acct_ownerId a) ownerId)
              (financeAccount db)).

Definition account_exists (db : Db) (i : string) : bool :=
  existsb (fun a => String.eqb (acct_id a) i) (financeAccount db).

Definition rule_exists (db : Db) (i : string) : bool :=
  existsb (fun r => String.eqb (rule_id r) i) (autopilotRule db).

(** [prisma.autopilotRule.create({ data })].  [newId] is the identifier
    Prisma draws for the row.  The insert throws on the primary key and on
    the foreign key to [FinanceAccount]; the owner is the authenticated
    user, whom [attachUser] has just read from the store. *)
Definition autopilotRule_create (db : Db) (newId : string)
    (owner : string) (data : RuleData) : (AutopilotRule * Db) + string :=
  let fk_ok := match data_accountId data with
               | Some i => account_exists db i
               | None => true
               end in
  if rule_exists db newId then inr "Unique constraint failed"%string
  else if negb fk_ok then inr "Foreign key constraint failed"%string
  else
    let rule := {| rule_id := newId;
                   rule_name := data_name data;
                   percentage := data_percentage data;
                   rule_destination := data_destination data;
                   active := match data_active data with
                             | Some b => b
                             | None => true
                             end;
                   rule_ownerId := owner;
                   rule_accountId := data_accountId data |} in
    inl (rule, {| financeAccount := financeAccount db;
                  transaction := transaction db;
                  autopilotRule := autopilotRule db ++ [rule] |}).

(** ** The handlers *)

Record User : Type := mkUser {
  user_id : string;
  email : string;
  displayName : string;
  role : string
}.

Record AuthedRequest : Type := mkRequest {
  req_user : option User;
  req_body : Body
}.

Inductive ResBody : Type :=
| ForecastBody (forecast : list ForecastRow)
| RuleBody (rule : AutopilotRule)
| ValidationFailed (issues : list string)
| MessageBody (message : string).

Record Response : Type := mkResponse {
  status : nat;
  json : ResBody
}.

(** [router.post('/forecast', requireAuth, ...)] with [errorHandler]. *)
Definition post_forecast (db : Db) (req : AuthedRequest) : Response :=
  match req_user req with
  | None => mkResponse 401 (MessageBody "Authentication required")
  | Some user =>
      match forecastSchema (req_body req) with
      | ZodError issues => mkResponse 400 (ValidationFailed issues)
      | ZOk horizonDays =>
          let accounts := findMany db (user_id user) in
          mkResponse 200 (ForecastBody (map (forecast_row horizonDays) accounts))
      end
  end.

(** [router.post('/autopilot-rules', requireAuth, ...)] with
    [errorHandler]. *)
Definition post_autopilot_rules (db : Db) (newId : string)
    (req : AuthedRequest) : Response * Db :=
  match req_user req with
  | None => (mkResponse 401 (MessageBody "Authentication required"), db)
  | Some user =>
      match ruleSchema (req_body req) with
      | ZodError issues => (mkResponse 400 (ValidationFailed issues), db)
      | ZOk data =>
          match autopilotRule_create db newId (user_id user) data with
          | inl (rule, db') => (mkResponse 201 (RuleBody rule), db')
          | inr message => (mkResponse 500 (MessageBody message), db)
          end
      end
  end.

(** ** The projection as the specification words it *)

Fixpoint Qsum (l : list Q) : Q :=
  match l with
  | [] => 0
  | x :: rest => x + Qsum rest
  end.

Module Spec.

(** Sum of the transaction amounts that are [> 0]. *)
Definition inflowTotal (txs : list Transaction) : Q :=
  Qsum (filter (fun x => Qltb 0 x) (map amount txs)).

(** Sum of the transaction amounts that are [< 0]. *)
Definition outflowTotal (txs : list Transaction) : Q :=
  Qsum (filter (fun x => Qltb x 0) (map amount txs)).

Definition transactionCount (txs : list Transaction) : nat :=
  List.length txs.

(** Sum over the active rules of [balance * percentage]. *)
Definition autopilotAccrual (bal : Q) (rules : list AutopilotRule) : Q :=
  Qsum (map (fun r => bal * percentage r) (filter active rules)).

Definition netPerTransaction (txs : list Transaction) : Q :=
  (inflowTotal txs + outflowTotal txs)
  / inject_Z (Z.of_nat (Nat.max (transactionCount txs) 1)).

(** A horizon the request validator lets through. *)
Definition valid_horizon (h : Q) : Prop :=
  exists n : Z, h == inject_Z n /\ (0 < n <= 180)%Z.

(** A percentage the rule-creation validator lets through. *)
Definition valid_percentage (p : Q) : Prop := 0 <= p /\ p <= 1.

End Spec.

(** ** The same arithmetic on binary64

    The callback of [accounts.map] once more, on the primitive floats of
    the kernel, which round as the doubles of JavaScript do.  An account is
    reduced to what the arithmetic reads: the balance, the amounts, and the
    percentage and active flag of each rule. *)

Module Binary64.

Import PrimFloat.
#[local] Open Scope float_scope.

Definition inflows (amounts : list float) : float :=
  fold_left (fun (sum t : float) => sum + t)
            (filter (fun t => 0 <? t) amounts) 0.

Definition outflows (amounts : list float) : float :=
  fold_left (fun (sum t : float) => sum + t)
            (filter (fun t => t <? 0) amounts) 0.

Definition autopilot (bal : float) (rules : list (float * bool)) : float :=
  fold_left (fun (sum : float) (rule : float * bool) =>
               if negb (snd rule) then sum else sum + bal * fst rule)
            rules 0.

Definition max_len_1 (amounts : list float) : float :=
  of_uint63 (Uint63.of_Z (Z.of_nat (Nat.max (List.length amounts) 1))).

Definition projected (bal : float) (amounts : list float)
    (rules : list (float * bool)) (horizonDays : float) : float :=
  bal + ((inflows amounts + outflows amounts) / max_len_1 amounts)
        * horizonDays
  - autopilot bal rules.

(** The seeded account of [prisma/seed.ts]: the literals are read as
    JavaScript reads them, to the nearest double. *)
#[local] Set Warnings "-inexact-float".
Definition seed_balance : float := 4200.32.
Definition seed_amounts : list float := [2400; -950].
Definition seed_horizon : float := 30.
Definition seed_projected : float := 25950.32.

Definition netPerTransaction (amounts : list float) : float :=
  (inflows amounts + outflows amounts) / max_len_1 amounts.

(** The plain left-to-right sum of the amounts. *)
Definition plain_sum (amounts : list float) : float :=
  fold_left (fun (sum t : float) => sum + t) amounts 0.

(** Decimal inputs on which rounding shows, each read to the nearest
    double as [JSON.parse] reads it. *)
Definition one_tenth : float := 0.1.
Definition two_tenths : float := 0.2.
Definition three_tenths : float := 0.3.
Definition one_half : float := 0.5.
Definition tiny_percentage : float := 1e-17.
Definition thousand : float := 1000.
Definition overdrawn : float := -500.
Definition one : float := 1.
Definition two : float := 2.

End Binary64.

(** ** The other handlers of the finance router *)

(** What a handler that creates a row answers: the row with 201, or one
    of the error responses of the handler and of [errorHandler]. *)
Inductive Outcome (A : Type) : Type :=
| Json201 (payload : A)
| Json400 (issues : list string)
| Json401 (message : string)
| Json404 (message : string)
| Json500 (message : string).
Arguments Json201 {A} payload.
Arguments Json400 {A} issues.
Arguments Json401 {A} message.
Arguments Json404 {A} message.
Arguments Json500 {A} message.

Definition outcome_status {A : Type} (o : Outcome A) : nat :=
  match o with
  | Json201 _ => 201
  | Json400 _ => 400
  | Json401 _ => 401
  | Json404 _ => 404
  | Json500 _ => 500
  end.

(** [prisma.financeAccount.create({ data: { ownerId, ...data } })];
    [newId] is the identifier Prisma draws, and the insert throws on the
    primary key. *)
Definition financeAccount_create (db : Db) (newId : string) (owner : string)
    (data : AccountData) : (FinanceAccount * Db) + string :=
  if account_exists db newId then inr "Unique constraint failed"%string
  else
    let acct := {| acct_id := newId;
                   acct_name := data_acct_name data;
                   acct_type := data_type data;
                   acct_currency := data_currency data;
                   balance := data_balance data;
                   acct_ownerId := owner |} in
    inl (acct, {| financeAccount := financeAccount db ++ [acct];
                  transaction := transaction db;
                  autopilotRule := autopilotRule db |}).

(** [router.post('/accounts', requireAuth, ...)] with [errorHandler]. *)
Definition post_accounts (db : Db) (newId : string) (req : AuthedRequest)
    : Outcome FinanceAccount * Db :=
  match req_user req with
  | None => (Json401 "Authentication required", db)
  | Some user =>
      match accountSchema (req_body req) with
      | ZodError issues => (Json400 issues, db)
      | ZOk data =>
          match financeAccount_create db newId (user_id user) data with
          | inl (acct, db') => (Json201 acct, db')
          | inr message => (Json500 message, db)
          end
      end
  end.

(** [z.string().datetime()]: the verdict of zod's datetime check on a
    string is taken as given ([datetime]). *)
Definition z_datetime (datetime : string -> bool) (v : option jsval)
    : option string :=
  match v with
  | Some (JString s) => if datetime s then Some s else None
  | _ => None
  end.

Record TransactionData : Type := mkTransactionData {
  tdata_accountId : string;
  tdata_description : string;
  tdata_amount : Q;
  tdata_category : string;
  tdata_occurredAt : string
}.

Definition transactionSchema (datetime : string -> bool) (body : Body)
    : parsed TransactionData :=
  match body with
  | ObjectBody o =>
      let accountId := z_string (lookup "accountId" o) in
      let description := z_string_min 3 (lookup "description" o) in
      let amt := z_number (lookup "amount" o) in
      let category := z_string (lookup "category" o) in
      let occurred := z_datetime datetime (lookup "occurredAt" o) in
      match accountId, description, amt, category, occurred with
      | Some i, Some d, Some m, Some c, Some t =>
          ZOk {| tdata_accountId := i; tdata_description := d;
                 tdata_amount := m; tdata_category := c;
                 tdata_occurredAt := t |}
      | _, _, _, _, _ =>
          ZodError (issue "accountId" accountId
                    ++ issue "description" description
                    ++ issue "amount" amt
                    ++ issue "category" category
                    ++ issue "occurredAt" occurred)
      end
  | _ => ZodError [""%string]
  end.

(** [prisma.financeAccount.findFirst({ where: { id, ownerId } })] *)
Definition findFirst (db : Db) (id ownerId : string) : option FinanceAccount :=
  find (fun a => String.eqb (acct_id a) id
                 && String.eqb (acct_ownerId a) ownerId)
       (financeAccount db).

Definition transaction_exists (db : Db) (i : string) : bool :=
  existsb (fun t => String.eqb (tx_id t) i) (transaction db).

(** [prisma.transaction.create({ data })]; the instant of [occurredAt] is
    kept as the validated string names it. *)
Definition transaction_create (db : Db) (newId : string)
    (acct : FinanceAccount) (data : TransactionData)
    : (Transaction * Db) + string :=
  if transaction_exists db newId then inr "Unique constraint failed"%string
  else
    let t := {| tx_id := newId;
                tx_description := tdata_description data;
                amount := tdata_amount data;
                tx_category := tdata_category data;
                occurredAt := tdata_occurredAt data;
                tx_accountId := acct_id acct |} in
    inl (t, {| financeAccount := financeAccount db;
               transaction := transaction db ++ [t];
               autopilotRule := autopilotRule db |}).

(** [router.post('/transactions', requireAuth, ...)] with
    [errorHandler]. *)
Definition post_transactions (datetime : string -> bool) (db : Db)
    (newId : string) (req : AuthedRequest) : Outcome Transaction * Db :=
  match req_user req with
  | None => (Json401 "Authentication required", db)
  | Some user =>
      match transactionSchema datetime (req_body req) with
      | ZodError issues => (Json400 issues, db)
      | ZOk data =>
          match findFirst db (tdata_accountId data) (user_id user) with
          | None => (Json404 "Account not found", db)
          | Some acct =>
              match transaction_create db newId acct data with
              | inl (t, db') => (Json201 t, db')
              | inr message => (Json500 message, db)
              end
          end
      end
  end.

(** One request to the finance router, with the identifier Prisma would
    draw for a row it creates. *)
Inductive FinanceRequest : Type :=
| PostAccounts (newId : string) (req : AuthedRequest)
| PostTransactions (newId : string) (req : AuthedRequest)
| PostAutopilotRules (newId : string) (req : AuthedRequest)
| PostForecast (req : AuthedRequest).

(** The status the router answers and the store it leaves. *)
Definition finance_step (datetime : string -> bool) (db : Db)
    (r : FinanceRequest) : nat * Db :=
  match r with
  | PostAccounts newId req =>
      let (o, db') := post_accounts db newId req in (outcome_status o, db')
  | PostTransactions newId req =>
      let (o, db') := post_transactions datetime db newId req in
      (outcome_status o, db')
  | PostAutopilotRules newId req =>
      let (res, db') := post_autopilot_rules db newId req in (status res, db')
  | PostForecast req => (status (post_forecast db req), db)
  end.

Definition finance_run (datetime : string -> bool) (db : Db)
    (rs : list FinanceRequest) : Db :=
  fold_left (fun d r => snd (finance_step datetime d r)) rs db.

(** Referential integrity of the store, as the migration declares it:
    primary keys are unique, every transaction points at an account, and
    every rule that names an account points at one. *)
Definition store_ok (db : Db) : Prop :=
  NoDup (map acct_id (financeAccount db))
  /\ NoDup (map tx_id (transaction db))
  /\ NoDup (map rule_id (autopilotRule db))
  /\ Forall (fun t => account_exists db (tx_accountId t) = true)
            (transaction db)
  /\ Forall (fun r => match rule_accountId r with
                      | Some i => account_exists db i = true
                      | None => True
                      end)
            (autopilotRule db).

(** ** The bearer token of the JWT middleware *)

(** [s.split(sep)] for a one-character separator. *)
Fixpoint split (sep : ascii) (s : string) : list string :=
  match s with
  | EmptyString => [EmptyString]
  | String c rest =>
      if Ascii.eqb c sep then EmptyString :: split sep rest
      else match split sep rest with
           | seg :: segs => String c seg :: segs
           | [] => [String c EmptyString]
           end
  end.

(** [toLowerCase] on the letters A-Z.  Other characters are left alone;
    no character outside A-Z lowers to a letter of ["bearer"], so the
    comparison below comes out as in JavaScript. *)
Definition lower (c : ascii) : ascii :=
  let n := nat_of_ascii c in
  if ((65 <=? n) && (n <=? 90))%nat then ascii_of_nat (n + 32) else c.

Fixpoint toLowerCase (s : string) : string :=
  match s with
  | EmptyString => EmptyString
  | String c rest => String (lower c) (toLowerCase rest)
  end.

(** [parseToken(headerValue)] *)
Definition parseToken (headerValue : option string) : option string :=
  match headerValue with
  | None => None
  | Some h =>
      if String.eqb h "" then None
      else
        let parts := split " " h in
        let scheme := nth_error parts 0 in
        let token := nth_error parts 1 in
        match scheme, token with
        | Some s, Some t =>
            if negb (String.eqb (toLowerCase s) "bearer") || String.eqb t ""
            then None else Some t
        | _, _ => None
        end
  end.

(** [attachUser], then [requireAuth]: the user a handler sees.
    [verify] is [jwt.verify] with the configured secret, giving the
    subject of a token it accepts; [findUnique] reads the user table. *)
Definition attachUser (verify : string -> option string)
    (findUnique : string -> option User) (authorization : option string)
    : option User :=
  match parseToken authorization with
  | None => None
  | Some token =>
      match verify token with
      | None => None
      | Some sub => findUnique sub
      end
  end.

(** A POST as it reaches the application: [express.json()] runs first
    and either hands on a parsed body or fails (malformed JSON, a body
    that is not an object or array, an oversized payload), in which case
    Express skips to [errorHandler], which answers the error with 500;
    then [attachUser], [requireAuth] and the handler of the route. *)
Inductive RawBody : Type :=
| Parsed (body : Body)
| Unparseable.

Inductive Route : Type :=
| AccountsRoute
| TransactionsRoute
| AutopilotRulesRoute
| ForecastRoute.

Definition route_request (route : Route) (newId : string)
    (req : AuthedRequest) : FinanceRequest :=
  match route with
  | AccountsRoute => PostAccounts newId req
  | TransactionsRoute => PostTransactions newId req
  | AutopilotRulesRoute => PostAutopilotRules newId req
  | ForecastRoute => PostForecast req
  end.

Definition finance_app (datetime : string -> bool)
    (verify : string -> option string) (findUnique : string -> option User)
    (db : Db) (route : Route) (newId : string)
    (authorization : option string) (raw : RawBody) : nat * Db :=
  match raw with
  | Unparseable => (500%nat, db)
  | Parsed body =>
      finance_step datetime db
        (route_request route newId
           (mkRequest (attachUser verify findUnique authorization) body))
  end.

Definition no_space (s : string) : Prop :=
  forall c, In c (list_ascii_of_string s) -> c <> " "%char.

(** ** The LedgerLoop client (the budget-buddy app)

    The form handlers that call the finance router and the figures the
    overview derives from its answers.  An account as the client holds it
    is the [AccountGraph] that [GET /accounts] serialises.  [Number] is
    JavaScript's conversion of a form string, [None] standing for NaN
    (infinite values are outside the number model), and [trim] is
    [String.prototype.trim]; both are taken as given. *)

Module LedgerLoop.

(** What a submit handler does: stop with a toast, or POST a body. *)
Inductive Submit : Type :=
| Toast (title : string)
| Send (path : string) (body : jsobject).


Record TransactionFormState : Type := mkTransactionForm {
  tf_accountId : option string;
  tf_description : string;
  tf_amount : string;
  tf_category : string;
  tf_occurredAt : string
}.




Definition handleTransactionSubmit (Number : string -> option Q)
    (trim : string -> string) (transactionForm : TransactionFormState)
    : Submit :=
  match tf_accountId transactionForm with
  | None => Toast "Select account"
  | Some accountId =>
      if String.eqb accountId "" then Toast "Select account"
      else if String.eqb (trim (tf_description transactionForm)) ""
      then Toast "Missing description"
      else
        match Number (tf_amount transactionForm) with
        | None => Toast "Amount invalid"
        | Some amt =>
            if Qeq_bool amt 0 then Toast "Amount invalid"
            else
              Send "/finance/transactions"
                   [("accountId", JString accountId);
                    ("description", JString (tf_description transactionForm));
                    ("amount", JNumber amt);
                    ("category", JString (tf_category transactionForm));
                    ("occurredAt", JString (tf_occurredAt transactionForm))]%string
        end
  end.


(** The figures of the overview. *)

Definition totalBalance (accounts : list AccountGraph) : Q :=
  fold_left (fun (sum : Q) (a : AccountGraph) => sum + balance (account a))
            accounts 0.

(** The [autopilotTotal] of an account card, which is also the
    [accountQueued] of [autopilotQueued]. *)
Definition autopilotTotal (a : AccountGraph) : Q :=
  fold_left (fun (sum : Q) (rule : AutopilotRule) =>
               sum + balance (account a) * percentage rule)
            (filter active (autopilotRules a)) 0.

Definition autopilotQueued (accounts : list AccountGraph) : Q :=
  fold_left (fun (sum : Q) (a : AccountGraph) => sum + autopilotTotal a)
            accounts 0.

(** The "[n] in" and "[m] out" of an account card. *)
Definition inflows (a : AccountGraph) : nat :=
  List.length (filter (fun t => Qltb 0 (amount t)) (transactions a)).

Definition outflows (a : AccountGraph) : nat :=
  List.length (filter (fun t => Qltb (amount t) 0) (transactions a)).

(** [forecastData?.[0]?.horizonDays ?? null] *)
Definition latestForecastHorizon (forecastData : option (list ForecastRow))
    : option Q :=
  match forecastData with
  | Some (row :: _) => Some (row_horizonDays row)
  | _ => None
  end.

Definition projectedTotal (forecastData : option (list ForecastRow))
    : option Q :=
  match forecastData with
  | Some rows =>
      Some (fold_left (fun (sum : Q) (row : ForecastRow) =>
                         sum + row_projected row) rows 0)
  | None => None
  end.

(** [runwayDays], read on exact numbers; [None] is [Infinity] (on
    doubles the quotient can also overflow to it). *)
Definition runwayDays (monthlyNet totalBalance : Q) : option Q :=
  if Qltb monthlyNet 0 then
    let monthlyBurn := Qabs monthlyNet in
    if Qeq_bool monthlyBurn 0 then None
    else Some ((totalBalance / monthlyBurn) * 30)
  else None.

(** [Number(x.toFixed(2))]: the nearest multiple of 0.01, a tie going away
    from zero; from 1e21 on [toFixed] prints the number itself. *)
Definition toFixed2 (x : Q) : Q :=
  if Qle_bool (10 ^ 21) (Qabs x) then x
  else if Qltb x 0
       then - (inject_Z (Qfloor (- x * 100 + (1 # 2))) / 100)
       else inject_Z (Qfloor (x * 100 + (1 # 2))) / 100.

(** A point of the sparkline; the label is "Today" or "+[h]d", where [h]
    is whatever [latestForecastHorizon] holds. *)
Inductive SparkLabel : Type :=
| Today
| PlusDays (h : option Q).

Record SparkPoint : Type := mkSparkPoint {
  label : SparkLabel;
  value : Q
}.

Definition forecastSpark (forecastData : option (list ForecastRow))
    (totalBalance : Q) : list SparkPoint :=
  let fallback :=
    [mkSparkPoint Today (toFixed2 totalBalance);
     mkSparkPoint (PlusDays (Some 30)) (toFixed2 (totalBalance * 0.92))] in
  match forecastData, projectedTotal forecastData with
  | Some _, Some total =>
      if Qeq_bool total 0 then fallback
      else [mkSparkPoint Today (toFixed2 totalBalance);
            mkSparkPoint (PlusDays (latestForecastHorizon forecastData))
                         (toFixed2 total)]
  | _, _ => fallback
  end.

(** The trend of the "Projected balance" badge of [cashflowStats]. *)
Inductive Trend : Type := up | down | steady.

Definition projectedTrend (forecastData : option (list ForecastRow))
    (totalBalance : Q) : Trend :=
  match projectedTotal forecastData with
  | None => steady
  | Some total => if Qltb total totalBalance then down else up
  end.

(** [transactions.slice().sort((a, b) => time(a) - time(b))], where
    [time(t)] is [new Date(t.occurredAt).getTime()].  [sort] is stable;
    it is modelled by inserting the elements one by one, each after the
    elements that are not later than it. *)
Fixpoint insert_by_time (time : Transaction -> Q) (t : Transaction)
    (sorted : list Transaction) : list Transaction :=
  match sorted with
  | [] => [t]
  | x :: rest =>
      if Qle_bool (time x) (time t) then x :: insert_by_time time t rest
      else t :: x :: rest
  end.

Definition sort_by_time (time : Transaction -> Q) (l : list Transaction)
    : list Transaction :=
  fold_left (fun sorted t => insert_by_time time t sorted) l [].

(** The callback of the [accounts.reduce] of [monthlyNet].  [getTime]
    reads the milliseconds of an [occurredAt] string (the server only
    stores instants that parse). *)
Definition monthlyNet_step (getTime : string -> Q) (sum : Q)
    (a : AccountGraph) : Q :=
  match transactions a with
  | [] => sum
  | _ :: _ =>
      let time := fun t => getTime (occurredAt t) in
      let sorted := sort_by_time time (transactions a) in
      match sorted with
      | [] => sum
      | t0 :: _ =>
          let first := time t0 in
          let last := time (List.last sorted t0) in
          let days := Qmax 1 ((last - first) / (1000 * 60 * 60 * 24)) in
          let total :=
            fold_left (fun (acc : Q) (t : Transaction) => acc + amount t)
                      (transactions a) 0 in
          let daily := total / days in
          sum + daily * 30
      end
  end.

Definition monthlyNet (getTime : string -> Q) (accounts : list AccountGraph)
    : Q :=
  fold_left (monthlyNet_step getTime) accounts 0.

End LedgerLoop.

(** ** The request state of the [useApi] hook *)

Module UseApi.

Inductive Status : Type := idle | loading | success | error.

(** [ApiState<T>]; an [Error] is kept by its message. *)
Record ApiState (T : Type) : Type := mkApiState {
  data : option T;
  err : option string;
  status : Status;
  timestamp : option Z
}.
Arguments mkApiState {T} data err status timestamp.
Arguments data {T} a.
Arguments err {T} a.
Arguments status {T} a.
Arguments timestamp {T} a.

(** [Action<T>]; a success carries the reading of [Date.now()] taken when
    it is reduced. *)
Inductive Action (T : Type) : Type :=
| Loading
| Success (payload : T) (now : Z)
| Error (error : string)
| Reset.
Arguments Loading {T}.
Arguments Success {T} payload now.
Arguments Error {T} error.
Arguments Reset {T}.

Definition initialState {T : Type} : ApiState T :=
  mkApiState None None idle None.

Definition reducer {T : Type} (state : ApiState T) (action : Action T)
    : ApiState T :=
  match action with
  | Loading => mkApiState (data state) None loading (timestamp state)
  | Success payload now => mkApiState (Some payload) None success (Some now)
  | Error e => mkApiState (data state) (Some e) error (timestamp state)
  | Reset => initialState
  end.

(** The state after a run of dispatched actions. *)
Definition dispatched {T : Type} (actions : list (Action T)) : ApiState T :=
  fold_left reducer actions initialState.

End UseApi.

(** ** The guardrail simulation of the nova router *)

Module Nova.

Inductive Verdict : Type := NeedsReview | ClearToShip.

Record Simulation : Type := mkSimulation {
  sim_prompt : string;
  sim_guardrails : list string;
  verdict : Verdict;
  confidence : Q;
  notes : list string
}.

(** [Math.min(1, Math.max(0, data.prompt.length / 280))] *)
Definition heuristicScore (prompt : string) : Q :=
  Qmin 1 (Qmax 0 (inject_Z (Z.of_nat (js_length prompt)) / 280)).

(** The body of the [/guardrails/simulate] handler, after
    [simulateSchema.parse]. *)
Definition simulate (prompt : string) (guardrails : option (list string))
    : Simulation :=
  let score := heuristicScore prompt in
  {| sim_prompt := prompt;
     sim_guardrails := match guardrails with Some g => g | None => [] end;
     verdict := if Qltb 0.65 score then NeedsReview else ClearToShip;
     confidence := 1 - score;
     notes := if Qltb 0.65 score
              then ["Tone deviates from approved copy banks";
                    "Guardrail escalation recommended"]%string
              else [] |}.

End Nova.

(** ** Facts about the number helpers *)

Lemma Qltb_lt (x y : Q) : Qltb x y = true <-> x < y.
Proof. unfold Qltb, Qlt. apply Z.ltb_lt. Qed.

Lemma Qltb_ge (x y : Q) : Qltb x y = false <-> y <= x.
Proof. unfold Qltb, Qle. apply Z.ltb_ge. Qed.

Lemma Qltb_irrefl_zero (x : Q) : x == 0 -> Qltb 0 x = false /\ Qltb x 0 = false.
Proof.
  intros Hx. split; apply Qltb_ge; rewrite Hx; apply Qle_refl.
Qed.

Lemma max_len_1_pos {A : Type} (l : list A) : 0 < max_len_1 l.
Proof.
  unfold max_len_1. replace 0 with (inject_Z 0) by reflexivity.
  rewrite <- Zlt_Qlt. lia.
Qed.

(** ** Sums: the left fold of [reduce] against the recursive sum *)

Lemma fold_left_sum {A : Type} (f : A -> Q) (l : list A) (acc : Q) :
  fold_left (fun sum t => sum + f t) l acc == acc + Qsum (map f l).
Proof.
  revert acc. induction l as [|t l IH]; intros acc; simpl.
  - ring.
  - rewrite IH. ring.
Qed.

Lemma Qsum_app (l1 l2 : list Q) : Qsum (l1 ++ l2) == Qsum l1 + Qsum l2.
Proof.
  induction l1 as [|x l1 IH]; simpl.
  - ring.
  - rewrite IH. ring.
Qed.

Lemma filter_map_amount (p : Q -> bool) (txs : list Transaction) :
  map amount (filter (fun t => p (amount t)) txs)
  = filter p (map amount txs).
Proof.
  induction txs as [|t txs IH]; simpl; [reflexivity|].
  destruct (p (amount t)); simpl; now rewrite IH.
Qed.

Lemma inflows_spec (a : AccountGraph) :
  inflows a == Spec.inflowTotal (transactions a).
Proof.
  unfold inflows, Spec.inflowTotal. rewrite fold_left_sum.
  rewrite (filter_map_amount (fun x => Qltb 0 x)). ring.
Qed.

Lemma outflows_spec (a : AccountGraph) :
  outflows a == Spec.outflowTotal (transactions a).
Proof.
  unfold outflows, Spec.outflowTotal. rewrite fold_left_sum.
  rewrite (filter_map_amount (fun x => Qltb x 0)). ring.
Qed.

Lemma autopilot_fold (bal : Q) (rules : list AutopilotRule) (acc : Q) :
  fold_left (autopilot_step bal) rules acc
  == acc + Spec.autopilotAccrual bal rules.
Proof.
  unfold Spec.autopilotAccrual.
  revert acc. induction rules as [|r rules IH]; intros acc; simpl.
  - ring.
  - rewrite IH. unfold autopilot_step.
    destruct (active r); simpl; ring.
Qed.

Lemma autopilot_spec (a : AccountGraph) :
  autopilot a == Spec.autopilotAccrual (balance (account a)) (autopilotRules a).
Proof. unfold autopilot. rewrite autopilot_fold. ring. Qed.

(** Splitting by sign loses nothing: the two filtered sums add up to the
    plain sum. *)
Lemma signed_sums (l : list Q) :
  Qsum (filter (fun x => Qltb 0 x) l) + Qsum (filter (fun x => Qltb x 0) l)
  == Qsum l.
Proof.
  induction l as [|x l IH]; simpl; [ring|].
  destruct (Qltb 0 x) eqn:Hp; destruct (Qltb x 0) eqn:Hn; simpl.
  - apply Qltb_lt in Hp. apply Qltb_lt in Hn.
    exfalso. apply (Qlt_irrefl 0). now apply Qlt_trans with x.
  - rewrite <- IH. ring.
  - rewrite <- IH. ring.
  - apply Qltb_ge in Hp. apply Qltb_ge in Hn.
    assert (Hx : x == 0) by (now apply Qle_antisym).
    rewrite <- IH, Hx. ring.
Qed.

Lemma Qsum_filter_neg_nonpos (l : list Q) :
  Qsum (filter (fun x => Qltb x 0) l) <= 0.
Proof.
  induction l as [|x l IH]; simpl; [apply Qle_refl|].
  destruct (Qltb x 0) eqn:Hn; simpl; [|exact IH].
  apply Qltb_lt in Hn. lra.
Qed.

Lemma Qsum_filter_pos_nonneg (l : list Q) :
  0 <= Qsum (filter (fun x => Qltb 0 x) l).
Proof.
  induction l as [|x l IH]; simpl; [apply Qle_refl|].
  destruct (Qltb 0 x) eqn:Hn; simpl; [|exact IH].
  apply Qltb_lt in Hn. lra.
Qed.

(** ** The projection formula *)

Lemma netPerTransaction_spec (a : AccountGraph) :
  netPerTransaction a == Spec.netPerTransaction (transactions a).
Proof.
  unfold netPerTransaction, Spec.netPerTransaction, Spec.transactionCount.
  rewrite inflows_spec, outflows_spec. reflexivity.
Qed.

Lemma projected_net (h : Q) (a : AccountGraph) :
  projected h a = balance (account a) + netPerTransaction a * h - autopilot a.
Proof. reflexivity. Qed.

(** The handler answers a valid request with one row per account of the
    caller, each computed by [forecast_row]. *)
Lemma post_forecast_ok (db : Db) (user : User) (body : Body) (h : Q) :
  forecastSchema body = ZOk h ->
  post_forecast db (mkRequest (Some user) body)
  = mkResponse 200
      (ForecastBody (map (forecast_row h) (findMany db (user_id user)))).
Proof. intros H. unfold post_forecast. simpl. now rewrite H. Qed.

(** C1. For every account snapshot and every horizon (so for every valid
    one), the row the forecast returns has
    projected = balance + ((inflowTotal + outflowTotal) /
    max(transactionCount, 1)) * horizonDays - autopilotAccrual, where
    inflowTotal sums the amounts > 0, outflowTotal sums the amounts < 0 and
    is not positive, the divisor is positive, and autopilotAccrual sums
    balance * percentage over the active rules; the row reports that
    accrual, the balance and the horizon unchanged, and a valid request is
    answered with one such row per account of the caller. *)
Theorem forecast_projected_formula (a : AccountGraph) (horizonDays : Q) :
  let bal := balance (account a) in
  let inflowTotal := Spec.inflowTotal (transactions a) in
  let outflowTotal := Spec.outflowTotal (transactions a) in
  let transactionCount := Spec.transactionCount (transactions a) in
  let autopilotAccrual := Spec.autopilotAccrual bal (autopilotRules a) in
  let row := forecast_row horizonDays a in
  row_projected row
  == bal
     + ((inflowTotal + outflowTotal)
        / inject_Z (Z.of_nat (Nat.max transactionCount 1))) * horizonDays
     - autopilotAccrual
  /\ outflowTotal <= 0
  /\ 0 <= inflowTotal
  /\ 0 < inject_Z (Z.of_nat (Nat.max transactionCount 1))
  /\ row_autopilot row == autopilotAccrual
  /\ row_balance row = bal
  /\ row_horizonDays row = horizonDays
  /\ (forall (db : Db) (user : User) (body : Body),
        forecastSchema body = ZOk horizonDays ->
        post_forecast db (mkRequest (Some user) body)
        = mkResponse 200
            (ForecastBody (map (forecast_row horizonDays)
                               (findMany db (user_id user))))).
Proof.
  cbv zeta. simpl.
  split; [|split; [|split; [|split; [|split; [|split; [|split]]]]]];
    try reflexivity.
  - unfold projected, max_len_1, Spec.transactionCount.
    rewrite inflows_spec, outflows_spec, autopilot_spec. reflexivity.
  - apply Qsum_filter_neg_nonpos.
  - apply Qsum_filter_pos_nonneg.
  - apply (max_len_1_pos (transactions a)).
  - apply autopilot_spec.
  - intros db user body Hb. now apply post_forecast_ok.
Qed.

Lemma forecast_projected_formula_witness :
  let acct := mkFinanceAccount "a1" "Blue Ridge Checking" CHECKING "USD"
                               4200.32 "u1" in
  let t1 := mkTransaction "t1" "Freelance Retainer" 2400 "Income"
                          "2025-11-07T00:00:00.000Z" "a1" in
  let t2 := mkTransaction "t2" "Studio Rent" (-950) "Housing"
                          "2025-11-08T00:00:00.000Z" "a1" in
  let r := mkAutopilotRule "r1" "Tax Reserve" 0.3 "Tax Savings" true
                           "u1" (Some "a1"%string) in
  let db := mkDb [acct] [t1; t2] [r] in
  let user := mkUser "u1" "marcus@ledgerloop.app" "Marcus Lee" "USER" in
  let body := ObjectBody [("horizonDays"%string, JNumber 60)] in
  forecastSchema body = ZOk 60
  /\ post_forecast db (mkRequest (Some user) body)
     = mkResponse 200
         (ForecastBody
            [forecast_row 60 (mkAccountGraph acct [t1; t2] [r])]).
Proof.
  cbv zeta. split; [reflexivity|].
  pose proof (forecast_projected_formula
                (mkAccountGraph
                   (mkFinanceAccount "a1" "Blue Ridge Checking" CHECKING
                                     "USD" 4200.32 "u1")
                   [] [])
                60) as H.
  cbv zeta in H.
  destruct H as (_ & _ & _ & _ & _ & _ & _ & H).
  rewrite (H _ _ (ObjectBody [("horizonDays"%string, JNumber 60)]) eq_refl).
  reflexivity.
Defined.

(** ** Linear scaling in the horizon *)

(** C7, as stated, fails on the handler's doubles: with balance 0.1, the
    single transaction 0.2, no rule and the valid horizons 1 and 2 the
    handler returns 0.30000000000000004 and 0.5, whose difference is
    0.19999999999999996, while netPerTransaction * (2 - 1) is 0.2. *)
Lemma horizon_linearity_counterexample :
  Spec.valid_horizon 1
  /\ Spec.valid_horizon 2
  /\ Binary64.netPerTransaction [Binary64.two_tenths] = Binary64.two_tenths
  /\ PrimFloat.eqb
       (PrimFloat.sub
          (Binary64.projected Binary64.one_tenth [Binary64.two_tenths] []
                              Binary64.two)
          (Binary64.projected Binary64.one_tenth [Binary64.two_tenths] []
                              Binary64.one))
       (PrimFloat.mul (Binary64.netPerTransaction [Binary64.two_tenths])
                      (PrimFloat.sub Binary64.two Binary64.one))
     = false.
Proof.
  split; [exists 1%Z; split; [reflexivity|lia]|].
  split; [exists 2%Z; split; [reflexivity|lia]|].
  split; vm_compute; reflexivity.
Qed.

(** C7, amended. For a fixed account snapshot and any two horizons H1 and
    H2 (so for any two valid ones), in exact arithmetic
    projected(H2) - projected(H1) = netPerTransaction * (H2 - H1); and the
    autopilot value of the row does not depend on the horizon. *)
Theorem projected_linear_in_horizon (a : AccountGraph) (H1 H2 : Q) :
  row_projected (forecast_row H2 a) - row_projected (forecast_row H1 a)
  == netPerTransaction a * (H2 - H1)
  /\ row_autopilot (forecast_row H2 a) = row_autopilot (forecast_row H1 a).
Proof.
  split; [|reflexivity].
  simpl. rewrite !projected_net. ring.
Qed.

(** ** Inactive rules *)

Lemma autopilot_step_inactive (bal sum : Q) (r : AutopilotRule) :
  active r = false -> autopilot_step bal sum r = sum.
Proof. intros H. unfold autopilot_step. now rewrite H. Qed.

Lemma autopilot_step_active (bal sum : Q) (r : AutopilotRule) :
  active r = true -> autopilot_step bal sum r = sum + bal * percentage r.
Proof. intros H. unfold autopilot_step. now rewrite H. Qed.

(** C8. A rule with active = false contributes exactly 0: the reduce
    hands the running sum on unchanged whatever the rule's percentage, and
    the whole forecast row equals the row computed with that rule removed,
    for every account, position of the rule and horizon. *)
Theorem inactive_rule_inert (acct : FinanceAccount) (txs : list Transaction)
    (before after : list AutopilotRule) (r : AutopilotRule)
    (horizonDays : Q) :
  active r = false ->
  (forall sum : Q, autopilot_step (balance acct) sum r = sum)
  /\ forecast_row horizonDays (mkAccountGraph acct txs (before ++ r :: after))
     = forecast_row horizonDays (mkAccountGraph acct txs (before ++ after)).
Proof.
  intros Hr. split.
  - intros sum. now apply autopilot_step_inactive.
  - assert (Ha : autopilot (mkAccountGraph acct txs (before ++ r :: after))
                 = autopilot (mkAccountGraph acct txs (before ++ after))).
    { unfold autopilot. simpl. rewrite !fold_left_app. simpl.
      now rewrite autopilot_step_inactive. }
    unfold forecast_row, projected. simpl.
    unfold inflows, outflows. simpl. now rewrite Ha.
Qed.

Lemma inactive_rule_inert_witness :
  let acct := mkFinanceAccount "a1" "Blue Ridge Checking" CHECKING "USD"
                               4200.32 "u1" in
  let r := mkAutopilotRule "r1" "Tax Reserve" 0.3 "Tax Savings" false
                           "u1" (Some "a1"%string) in
  active r = false
  /\ forecast_row 30 (mkAccountGraph acct [] ([] ++ r :: []))
     = forecast_row 30 (mkAccountGraph acct [] ([] ++ [])).
Proof.
  split; [reflexivity|].
  apply (inactive_rule_inert
           (mkFinanceAccount "a1" "Blue Ridge Checking" CHECKING "USD"
                             4200.32 "u1")
           [] [] []
           (mkAutopilotRule "r1" "Tax Reserve" 0.3 "Tax Savings" false
                            "u1" (Some "a1"%string))
           30).
  reflexivity.
Defined.

(** ** Zero-amount transactions *)

Lemma filter_insert_dropped {A : Type} (p : A -> bool) (l1 l2 : list A) (x : A) :
  p x = false -> filter p (l1 ++ x :: l2) = filter p (l1 ++ l2).
Proof.
  intros Hx. rewrite !filter_app. simpl. now rewrite Hx.
Qed.

Lemma netPerTransaction_plain_sum (a : AccountGraph) :
  netPerTransaction a
  == Qsum (map amount (transactions a))
     / inject_Z (Z.of_nat (Nat.max (List.length (transactions a)) 1)).
Proof.
  rewrite netPerTransaction_spec.
  unfold Spec.netPerTransaction, Spec.inflowTotal, Spec.outflowTotal,
    Spec.transactionCount.
  now rewrite signed_sums.
Qed.

(** C9, as stated, fails in two places.  From an empty history a
    zero-amount transaction does not increase the divisor: it is
    max(0, 1) = 1 before and max(1, 1) = 1 after.  And on the handler's
    doubles the numerator inflows + outflows is not the plain sum of the
    amounts: for 0.1, -0.3, 0.2 the handler's netPerTransaction differs
    from (0.1 + -0.3 + 0.2) / 3. *)
Lemma zero_amount_counterexample :
  let t0 := mkTransaction "t0" "Fee waiver" 0 "Bank"
                          "2025-11-08T00:00:00.000Z" "a1" in
  let amounts := [Binary64.one_tenth; PrimFloat.opp Binary64.three_tenths;
                  Binary64.two_tenths] in
  amount t0 == 0
  /\ max_len_1 ([] : list Transaction) == 1
  /\ max_len_1 [t0] == 1
  /\ ~ max_len_1 ([] : list Transaction) < max_len_1 [t0]
  /\ PrimFloat.eqb
       (Binary64.netPerTransaction amounts)
       (PrimFloat.div (Binary64.plain_sum amounts)
                      (Binary64.max_len_1 amounts))
     = false.
Proof.
  cbv zeta.
  split; [reflexivity|]. split; [reflexivity|]. split; [reflexivity|].
  split; [intros H; vm_compute in H; discriminate H|].
  vm_compute. reflexivity.
Qed.

(** C9, amended. A transaction whose amount is 0 passes neither the
    inflow filter nor the outflow filter, so adding one leaves both sums
    unchanged, while it is counted: transactionCount grows by one, and
    the divisor max(transactionCount, 1) grows by one too, except from
    the empty history, where it stays 1.  For every account, in exact
    arithmetic, netPerTransaction equals
    (sum of all amounts) / max(transactionCount, 1). *)
Theorem zero_amount_transaction (acct : FinanceAccount)
    (before after : list Transaction) (rules : list AutopilotRule)
    (t : Transaction) :
  amount t == 0 ->
  let a0 := mkAccountGraph acct (before ++ after) rules in
  let a1 := mkAccountGraph acct (before ++ t :: after) rules in
  (Qltb 0 (amount t) = false /\ Qltb (amount t) 0 = false)
  /\ inflows a1 = inflows a0
  /\ outflows a1 = outflows a0
  /\ Spec.transactionCount (transactions a1)
     = S (Spec.transactionCount (transactions a0))
  /\ max_len_1 (transactions a1)
     == (if Nat.eqb (List.length (transactions a0)) 0 then 1
         else max_len_1 (transactions a0) + 1)
  /\ (forall a : AccountGraph,
        netPerTransaction a
        == Qsum (map amount (transactions a))
           / inject_Z (Z.of_nat (Nat.max (Spec.transactionCount (transactions a)) 1))).
Proof.
  intros Ht. cbv zeta.
  destruct (Qltb_irrefl_zero _ Ht) as [Hp Hn].
  split; [now split|].
  split; [|split; [|split; [|split]]].
  - unfold inflows. simpl.
    now rewrite (filter_insert_dropped (fun t0 => Qltb 0 (amount t0))).
  - unfold outflows. simpl.
    now rewrite (filter_insert_dropped (fun t0 => Qltb (amount t0) 0)).
  - unfold Spec.transactionCount. simpl. rewrite !length_app. simpl. lia.
  - simpl. unfold max_len_1. rewrite !length_app. simpl.
    destruct (List.length before + List.length after)%nat as [|n] eqn:Hlen.
    + replace (List.length before + S (List.length after))%nat with 1%nat by lia.
      reflexivity.
    + replace (List.length before + S (List.length after))%nat with (S (S n)) by lia.
      simpl Nat.eqb. cbv iota.
      replace 1 with (inject_Z 1) by reflexivity.
      rewrite <- inject_Z_plus. apply inject_Z_injective. lia.
  - intros a. apply netPerTransaction_plain_sum.
Qed.

Lemma zero_amount_transaction_witness :
  let acct := mkFinanceAccount "a1" "Blue Ridge Checking" CHECKING "USD"
                               4200.32 "u1" in
  let t1 := mkTransaction "t1" "Freelance Retainer" 2400 "Income"
                          "2025-11-07T00:00:00.000Z" "a1" in
  let t0 := mkTransaction "t0" "Fee waiver" 0 "Bank"
                          "2025-11-08T00:00:00.000Z" "a1" in
  amount t0 == 0
  /\ inflows (mkAccountGraph acct ([t1] ++ t0 :: []) [])
     = inflows (mkAccountGraph acct ([t1] ++ []) []).
Proof.
  split; [reflexivity|].
  apply (zero_amount_transaction
           (mkFinanceAccount "a1" "Blue Ridge Checking" CHECKING "USD"
                             4200.32 "u1")
           [mkTransaction "t1" "Freelance Retainer" 2400 "Income"
                          "2025-11-07T00:00:00.000Z" "a1"]
           [] []
           (mkTransaction "t0" "Fee waiver" 0 "Bank"
                          "2025-11-08T00:00:00.000Z" "a1")).
  reflexivity.
Defined.

(** ** The sign of the autopilot accrual *)

Lemma z_percentage_accepts (x : Q) :
  z_percentage (Some (JNumber x)) = Some x <-> Spec.valid_percentage x.
Proof.
  unfold z_percentage, Spec.valid_percentage.
  destruct (Qle_bool 0 x) eqn:H0; destruct (Qle_bool x 1) eqn:H1; simpl.
  - apply Qle_bool_iff in H0. apply Qle_bool_iff in H1. tauto.
  - split; [discriminate|]. intros [_ H]. apply Qle_bool_iff in H. congruence.
  - split; [discriminate|]. intros [H _]. apply Qle_bool_iff in H. congruence.
  - split; [discriminate|]. intros [H _]. apply Qle_bool_iff in H. congruence.
Qed.

Lemma accrual_nonneg (bal : Q) (rules : list AutopilotRule) :
  0 <= bal ->
  Forall (fun r => 0 <= percentage r) rules ->
  0 <= Spec.autopilotAccrual bal rules.
Proof.
  intros Hb Hr. unfold Spec.autopilotAccrual.
  induction Hr as [|r rules Hp _ IH]; simpl; [apply Qle_refl|].
  destruct (active r); simpl; [|exact IH].
  pose proof (Qmult_le_0_compat _ _ Hb Hp). lra.
Qed.

(** C3, as stated, fails: an account may carry a negative balance
    ([accountSchema] takes any number), and then a rule whose percentage
    passes the rule validator accrues a negative amount. *)
Lemma autopilot_negative_counterexample :
  let body := ObjectBody [("name", JString "Travel Card");
                          ("type", JString "CREDIT");
                          ("currency", JString "USD");
                          ("balance", JNumber (-100))]%string in
  let acct := mkFinanceAccount "a1" "Travel Card" CREDIT "USD" (-100) "u1" in
  let r := mkAutopilotRule "r1" "Tax Reserve" 0.5 "Tax Savings" true
                           "u1" (Some "a1"%string) in
  accountSchema body = ZOk (mkAccountData "Travel Card" CREDIT "USD" (-100))
  /\ z_percentage (Some (JNumber (percentage r))) = Some (percentage r)
  /\ autopilot (mkAccountGraph acct [] [r]) == -50
  /\ ~ 0 <= autopilot (mkAccountGraph acct [] [r]).
Proof.
  cbv zeta. repeat split. intros H. vm_compute in H. now apply H.
Qed.

(** C3, amended. For every account whose balance is not negative and every
    list of rules whose percentages pass the rule-creation validation, the
    autopilot accrual of the forecast is not negative. *)
Theorem autopilot_nonneg (a : AccountGraph) :
  0 <= balance (account a) ->
  Forall (fun r => z_percentage (Some (JNumber (percentage r)))
                   = Some (percentage r)) (autopilotRules a) ->
  0 <= autopilot a
  /\ forall horizonDays : Q, 0 <= row_autopilot (forecast_row horizonDays a).
Proof.
  intros Hb Hr.
  assert (H : 0 <= autopilot a).
  { rewrite autopilot_spec. apply accrual_nonneg; [exact Hb|].
    eapply Forall_impl; [|exact Hr].
    intros r Hv. apply z_percentage_accepts in Hv. apply Hv. }
  split; [exact H|]. intros h. exact H.
Qed.

Lemma autopilot_nonneg_witness :
  let acct := mkFinanceAccount "a1" "Blue Ridge Checking" CHECKING "USD"
                               4200.32 "u1" in
  let r := mkAutopilotRule "r1" "Tax Reserve" 0.3 "Tax Savings" true
                           "u1" (Some "a1"%string) in
  0 <= balance acct
  /\ 0 <= autopilot (mkAccountGraph acct [] [r]).
Proof.
  cbv zeta. split; [vm_compute; discriminate|].
  apply (autopilot_nonneg
           (mkAccountGraph
              (mkFinanceAccount "a1" "Blue Ridge Checking" CHECKING "USD"
                                4200.32 "u1")
              []
              [mkAutopilotRule "r1" "Tax Reserve" 0.3 "Tax Savings" true
                               "u1" (Some "a1"%string)])).
  - vm_compute; discriminate.
  - repeat constructor.
Defined.

(** ** Adding an active rule *)

Lemma autopilot_insert_active (acct : FinanceAccount) (txs : list Transaction)
    (before after : list AutopilotRule) (r : AutopilotRule) :
  active r = true ->
  autopilot (mkAccountGraph acct txs (before ++ r :: after))
  == autopilot (mkAccountGraph acct txs (before ++ after))
     + balance acct * percentage r.
Proof.
  intros Hr. rewrite !autopilot_spec. simpl.
  unfold Spec.autopilotAccrual. rewrite !filter_app. simpl. rewrite Hr.
  rewrite !map_app, !Qsum_app. simpl. ring.
Qed.

Lemma binary64_autopilot_append (bal : PrimFloat.float)
    (rules : list (PrimFloat.float * bool)) (p : PrimFloat.float) :
  Binary64.autopilot bal (rules ++ [(p, true)])
  = PrimFloat.add (Binary64.autopilot bal rules) (PrimFloat.mul bal p).
Proof.
  unfold Binary64.autopilot. rewrite fold_left_app. reflexivity.
Qed.

(** C6, as stated, fails twice over.  On an account whose balance is not
    positive an added active rule with a positive percentage does not
    lower the projection: with balance -500 and p = 0.5 it rises from -500
    to -250, in exact arithmetic and on doubles alike.  And on the
    handler's doubles the decrease is not exactly balance * p and can be
    absorbed: with balance 1000 and p = 1e-17, which the rule validator
    accepts, the projection is the same double with and without the
    rule. *)
Lemma active_rule_counterexample :
  let acct := mkFinanceAccount "a1" "Travel Card" CREDIT "USD" (-500) "u1" in
  let r := mkAutopilotRule "r1" "Tax Reserve" 0.5 "Tax Savings" true
                           "u1" (Some "a1"%string) in
  let tiny := 1 # 100000000000000000 in
  0 < percentage r
  /\ projected 30 (mkAccountGraph acct [] []) == -500
  /\ projected 30 (mkAccountGraph acct [] [r]) == -250
  /\ ~ projected 30 (mkAccountGraph acct [] [r])
       < projected 30 (mkAccountGraph acct [] [])
  /\ Binary64.projected Binary64.overdrawn [] [] Binary64.seed_horizon
     = Binary64.overdrawn
  /\ PrimFloat.ltb
       (Binary64.projected Binary64.overdrawn []
                           [(Binary64.one_half, true)] Binary64.seed_horizon)
       (Binary64.projected Binary64.overdrawn [] [] Binary64.seed_horizon)
     = false
  /\ z_percentage (Some (JNumber tiny)) = Some tiny
  /\ 0 < tiny
  /\ Binary64.projected Binary64.thousand []
                        [(Binary64.tiny_percentage, true)]
                        Binary64.seed_horizon
     = Binary64.projected Binary64.thousand [] [] Binary64.seed_horizon.
Proof.
  cbv zeta.
  split; [reflexivity|]. split; [reflexivity|]. split; [reflexivity|].
  split; [intros H; vm_compute in H; discriminate H|].
  split; [vm_compute; reflexivity|].
  split; [vm_compute; reflexivity|].
  split; [reflexivity|]. split; [reflexivity|].
  vm_compute. reflexivity.
Qed.

(** C6, amended. For every account and horizon, adding one active rule
    with percentage p, everything else fixed, changes the projection, in
    exact arithmetic, by exactly - balance * p, and when the balance is
    positive and p > 0 that is a strict decrease.  On the handler's
    doubles the rule, appended to the rule list, adds the rounded product
    balance * p to the rounded autopilot sum, which is then subtracted
    from balance + netPerTransaction * horizon; so there the change is
    balance * p only up to rounding. *)
Theorem active_rule_lowers_projection (acct : FinanceAccount)
    (txs : list Transaction) (before after : list AutopilotRule)
    (r : AutopilotRule) (horizonDays : Q) :
  active r = true ->
  let without := mkAccountGraph acct txs (before ++ after) in
  let with_r := mkAccountGraph acct txs (before ++ r :: after) in
  projected horizonDays with_r
  == projected horizonDays without - balance acct * percentage r
  /\ (0 < balance acct -> 0 < percentage r ->
      projected horizonDays with_r < projected horizonDays without)
  /\ (forall (bal : PrimFloat.float) (amounts : list PrimFloat.float)
             (rules : list (PrimFloat.float * bool))
             (p h : PrimFloat.float),
        Binary64.autopilot bal (rules ++ [(p, true)])
        = PrimFloat.add (Binary64.autopilot bal rules) (PrimFloat.mul bal p)
        /\ Binary64.projected bal amounts (rules ++ [(p, true)]) h
           = PrimFloat.sub
               (PrimFloat.add bal
                  (PrimFloat.mul (Binary64.netPerTransaction amounts) h))
               (PrimFloat.add (Binary64.autopilot bal rules)
                              (PrimFloat.mul bal p))).
Proof.
  intros Hr. cbv zeta.
  assert (E : projected horizonDays (mkAccountGraph acct txs (before ++ r :: after))
              == projected horizonDays (mkAccountGraph acct txs (before ++ after))
                 - balance acct * percentage r).
  { rewrite !projected_net.
    rewrite (autopilot_insert_active acct txs before after r Hr).
    unfold netPerTransaction, inflows, outflows. simpl. ring. }
  split; [exact E|]. split.
  - intros Hb Hp. rewrite E.
    pose proof (Qmult_lt_0_compat _ _ Hb Hp). lra.
  - intros bal amounts rules p h. split.
    + apply binary64_autopilot_append.
    + unfold Binary64.projected. rewrite binary64_autopilot_append.
      reflexivity.
Qed.

Lemma active_rule_lowers_projection_witness :
  let acct := mkFinanceAccount "a1" "Blue Ridge Checking" CHECKING "USD"
                               4200.32 "u1" in
  let r := mkAutopilotRule "r1" "Tax Reserve" 0.3 "Tax Savings" true
                           "u1" (Some "a1"%string) in
  active r = true
  /\ 0 < balance acct
  /\ 0 < percentage r
  /\ projected 30 (mkAccountGraph acct [] ([] ++ r :: []))
     == projected 30 (mkAccountGraph acct [] ([] ++ [])) - balance acct * percentage r
  /\ projected 30 (mkAccountGraph acct [] ([] ++ r :: []))
     < projected 30 (mkAccountGraph acct [] ([] ++ [])).
Proof.
  cbv zeta.
  destruct (active_rule_lowers_projection
              (mkFinanceAccount "a1" "Blue Ridge Checking" CHECKING "USD"
                                4200.32 "u1")
              [] [] []
              (mkAutopilotRule "r1" "Tax Reserve" 0.3 "Tax Savings" true
                               "u1" (Some "a1"%string))
              30 eq_refl) as (E & S & _).
  split; [reflexivity|].
  split; [reflexivity|].
  split; [reflexivity|].
  split; [exact E|].
  apply S; reflexivity.
Defined.

(** ** The seeded account *)

Lemma filter_active_none (rules : list AutopilotRule) :
  Forall (fun r => active r = false) rules ->
  filter active rules = [].
Proof.
  intros H. induction H as [|r rules Hr _ IH]; simpl; [reflexivity|].
  now rewrite Hr.
Qed.

Lemma binary64_autopilot_inactive (bal : PrimFloat.float)
    (rules : list (PrimFloat.float * bool)) (acc : PrimFloat.float) :
  Forall (fun rule => snd rule = false) rules ->
  fold_left (fun (sum : PrimFloat.float) (rule : PrimFloat.float * bool) =>
               if negb (snd rule) then sum
               else PrimFloat.add sum (PrimFloat.mul bal (fst rule)))
            rules acc
  = acc.
Proof.
  intros H. revert acc.
  induction H as [|rule rules Hr _ IH]; intros acc; simpl; [reflexivity|].
  rewrite Hr. simpl. apply IH.
Qed.

(** C5. With transactions [+2400, -950], balance 4200.32, horizon 30 and
    no active rule, netPerTransaction is (2400 - 950) / 2 = 725 and the
    forecast returns projected = 4200.32 + 725 * 30 - 0 = 25950.32: as
    exact decimals, and bit for bit in binary64 arithmetic. *)
Theorem seed_scenario_projection (a : AccountGraph) :
  balance (account a) == 4200.32 ->
  map amount (transactions a) = [2400; -950] ->
  Forall (fun r => active r = false) (autopilotRules a) ->
  netPerTransaction a == 725
  /\ row_autopilot (forecast_row 30 a) == 0
  /\ row_projected (forecast_row 30 a) == 25950.32
  /\ forall rules : list (PrimFloat.float * bool),
       Forall (fun rule => snd rule = false) rules ->
       Binary64.projected Binary64.seed_balance Binary64.seed_amounts rules
                          Binary64.seed_horizon
       = Binary64.seed_projected.
Proof.
  intros Hb Htx Hr.
  assert (Hn : netPerTransaction a == 725).
  { rewrite netPerTransaction_plain_sum.
    rewrite <- (length_map amount), Htx. reflexivity. }
  assert (Ha : autopilot a == 0).
  { rewrite autopilot_spec. unfold Spec.autopilotAccrual.
    rewrite (filter_active_none _ Hr). reflexivity. }
  split; [exact Hn|]. split; [exact Ha|]. split.
  - simpl. rewrite projected_net, Hn, Ha, Hb. reflexivity.
  - intros rules Hrules. unfold Binary64.projected, Binary64.autopilot.
    rewrite (binary64_autopilot_inactive _ rules _ Hrules).
    vm_compute. reflexivity.
Qed.

Lemma seed_scenario_projection_witness :
  let acct := mkFinanceAccount "a1" "Blue Ridge Checking" CHECKING "USD"
                               4200.32 "u1" in
  let t1 := mkTransaction "t1" "Freelance Retainer" 2400 "Income"
                          "2025-11-07T00:00:00.000Z" "a1" in
  let t2 := mkTransaction "t2" "Studio Rent" (-950) "Housing"
                          "2025-11-08T00:00:00.000Z" "a1" in
  let a := mkAccountGraph acct [t1; t2] [] in
  balance (account a) == 4200.32
  /\ map amount (transactions a) = [2400; -950]
  /\ Forall (fun r => active r = false) (autopilotRules a)
  /\ row_projected (forecast_row 30 a) == 25950.32.
Proof.
  cbv zeta.
  split; [reflexivity|]. split; [reflexivity|]. split; [constructor|].
  apply (seed_scenario_projection
           (mkAccountGraph
              (mkFinanceAccount "a1" "Blue Ridge Checking" CHECKING "USD"
                                4200.32 "u1")
              [mkTransaction "t1" "Freelance Retainer" 2400 "Income"
                             "2025-11-07T00:00:00.000Z" "a1";
               mkTransaction "t2" "Studio Rent" (-950) "Housing"
                             "2025-11-08T00:00:00.000Z" "a1"]
              [])).
  - reflexivity.
  - reflexivity.
  - constructor.
Defined.

(** ** The horizon validator *)

Lemma Qred_inject_Z (n : Z) : Qred (inject_Z n) = inject_Z n.
Proof.
  unfold Qred, inject_Z.
  pose proof (Z.ggcd_gcd n 1) as Hg.
  pose proof (Z.ggcd_correct_divisors n 1) as Hd.
  destruct (Z.ggcd n 1) as [g [aa bb]]. simpl in *.
  rewrite Z.gcd_1_r in Hg. subst g.
  destruct Hd as [Ha Hb].
  replace aa with n by lia. replace bb with 1%Z by lia.
  reflexivity.
Qed.

Lemma isInteger_iff (x : Q) :
  isInteger x = true <-> exists n : Z, x == inject_Z n.
Proof.
  unfold isInteger. rewrite Pos.eqb_eq. split.
  - intros Hd. exists (Qnum (Qred x)).
    rewrite <- (Qred_correct x) at 1.
    destruct (Qred x) as [num den]. simpl in *. subst den. reflexivity.
  - intros [n Hn]. apply Qred_complete in Hn.
    rewrite Hn, Qred_inject_Z. reflexivity.
Qed.

Lemma z_horizonDays_number (x : Q) :
  z_horizonDays (Some (JNumber x)) = Some x <-> Spec.valid_horizon x.
Proof.
  unfold z_horizonDays, Spec.valid_horizon.
  destruct (isInteger x) eqn:Hi; simpl.
  - apply isInteger_iff in Hi. destruct Hi as [n Hn].
    destruct (Qltb 0 x) eqn:Hp; simpl.
    + apply Qltb_lt in Hp.
      destruct (Qle_bool x 180) eqn:Hm.
      * apply Qle_bool_iff in Hm. split; [intros _|reflexivity].
        exists n. split; [exact Hn|].
        rewrite Hn in Hp, Hm.
        replace 0 with (inject_Z 0) in Hp by reflexivity.
        replace 180 with (inject_Z 180) in Hm by reflexivity.
        rewrite <- Zlt_Qlt in Hp. rewrite <- Zle_Qle in Hm. lia.
      * split; [discriminate|]. intros [m [Hm' [_ Hle]]].
        assert (Hx : x <= 180).
        { rewrite Hm'. replace 180 with (inject_Z 180) by reflexivity.
          now rewrite <- Zle_Qle. }
        apply Qle_bool_iff in Hx. congruence.
    + split; [discriminate|]. intros [m [Hm' [Hlt _]]].
      assert (Hx : 0 < x).
      { rewrite Hm'. replace 0 with (inject_Z 0) by reflexivity.
        now rewrite <- Zlt_Qlt. }
      apply Qltb_lt in Hx. congruence.
  - split; [discriminate|]. intros [m [Hm' _]].
    assert (Hx : isInteger x = true) by (apply isInteger_iff; now exists m).
    congruence.
Qed.

Lemma z_horizonDays_unclamped (x h : Q) :
  z_horizonDays (Some (JNumber x)) = Some h -> h = x.
Proof.
  unfold z_horizonDays.
  destruct (isInteger x && Qltb 0 x && Qle_bool x 180); congruence.
Qed.

Lemma z_horizonDays_reject (x : Q) :
  ~ Spec.valid_horizon x -> z_horizonDays (Some (JNumber x)) = None.
Proof.
  intros Hn. destruct (z_horizonDays (Some (JNumber x))) as [h|] eqn:E;
    [|reflexivity].
  pose proof (z_horizonDays_unclamped _ _ E) as ->.
  apply z_horizonDays_number in E. contradiction.
Qed.

(** C2. The forecast validator accepts a horizonDays number exactly when it
    is an integer n with 0 < n <= 180, and then hands on that very number;
    any other number and any non-number is rejected: the handler answers
    400 with the validation issue and computes no row.  0, -5, 181 and 30.5
    are rejected and 180 is accepted.  When horizonDays is absent (or the
    request has no body) the horizon is 30. *)
Theorem horizonDays_validation :
  (forall (o : jsobject) (x : Q),
      lookup "horizonDays" o = Some (JNumber x) ->
      (forecastSchema (ObjectBody o) = ZOk x <-> Spec.valid_horizon x)
      /\ (forall h : Q, forecastSchema (ObjectBody o) = ZOk h -> h = x)
      /\ (~ Spec.valid_horizon x ->
          forall (db : Db) (user : User),
            post_forecast db (mkRequest (Some user) (ObjectBody o))
            = mkResponse 400 (ValidationFailed ["horizonDays"%string])))
  /\ (forall (o : jsobject) (v : jsval),
        lookup "horizonDays" o = Some v ->
        (forall x : Q, v <> JNumber x) ->
        forecastSchema (ObjectBody o) = ZodError ["horizonDays"%string])
  /\ (forall o : jsobject,
        lookup "horizonDays" o = None ->
        forecastSchema (ObjectBody o) = ZOk 30)
  /\ forecastSchema NoBody = ZOk 30
  /\ (forall x : Q, In x [0; -5; 181; 30.5] ->
        forecastSchema (ObjectBody [("horizonDays"%string, JNumber x)])
        = ZodError ["horizonDays"%string])
  /\ forecastSchema (ObjectBody [("horizonDays"%string, JNumber 180)])
     = ZOk 180.
Proof.
  split; [|split; [|split; [|split; [|split]]]].
  - intros o x Ho. unfold post_forecast, forecastSchema. simpl. rewrite Ho.
    split; [|split].
    + rewrite <- z_horizonDays_number.
      destruct (z_horizonDays (Some (JNumber x))) as [h|] eqn:E.
      * pose proof (z_horizonDays_unclamped _ _ E) as ->. tauto.
      * split; discriminate.
    + intros h.
      destruct (z_horizonDays (Some (JNumber x))) as [h'|] eqn:E;
        [|discriminate].
      intros [= <-]. now apply z_horizonDays_unclamped.
    + intros Hn db user. now rewrite (z_horizonDays_reject _ Hn).
  - intros o v Ho Hv. unfold forecastSchema. rewrite Ho.
    destruct v; try reflexivity. now destruct (Hv x).
  - intros o Ho. unfold forecastSchema. now rewrite Ho.
  - reflexivity.
  - intros x Hx. simpl in Hx.
    destruct Hx as [<-|[<-|[<-|[<-|[]]]]]; reflexivity.
  - reflexivity.
Qed.

Lemma horizonDays_validation_witness :
  let o := [("horizonDays"%string, JNumber 180)] in
  lookup "horizonDays" o = Some (JNumber 180)
  /\ Spec.valid_horizon 180
  /\ forecastSchema (ObjectBody o) = ZOk 180.
Proof.
  cbv zeta.
  assert (Hv : Spec.valid_horizon 180).
  { exists 180%Z. split; [reflexivity|lia]. }
  split; [reflexivity|]. split; [exact Hv|].
  apply (proj1 horizonDays_validation
               [("horizonDays"%string, JNumber 180)] 180 eq_refl).
  exact Hv.
Defined.

(** ** The rule validator *)

Lemma ruleSchema_ok (o : jsobject) (i : option string) (n d : string)
    (a : option bool) (x : Q) :
  other_fields_ok o i n d a ->
  z_percentage (lookup "percentage" o) = Some x ->
  ruleSchema (ObjectBody o) = ZOk (mkRuleData i n x d a).
Proof.
  intros (Hi & Hn & Hd & Ha) Hp. unfold ruleSchema.
  now rewrite Hi, Hn, Hd, Ha, Hp.
Qed.

Lemma ruleSchema_bad_percentage (o : jsobject) (i : option string)
    (n d : string) (a : option bool) :
  other_fields_ok o i n d a ->
  z_percentage (lookup "percentage" o) = None ->
  ruleSchema (ObjectBody o) = ZodError ["percentage"%string].
Proof.
  intros (Hi & Hn & Hd & Ha) Hp. unfold ruleSchema.
  now rewrite Hi, Hn, Hd, Ha, Hp.
Qed.

Lemma z_percentage_reject (x : Q) :
  ~ Spec.valid_percentage x -> z_percentage (Some (JNumber x)) = None.
Proof.
  intros Hn. unfold z_percentage.
  destruct (Qle_bool 0 x && Qle_bool x 1) eqn:E; [|reflexivity].
  exfalso. apply Hn. apply z_percentage_accepts.
  unfold z_percentage. now rewrite E.
Qed.

(** C4, as stated, fails: the percentage 0 is outside (0, 1] and the
    rule-creation operation accepts it. *)
Lemma zero_percentage_counterexample :
  let body := ObjectBody [("name", JString "Tax Reserve");
                          ("percentage", JNumber 0);
                          ("destination", JString "Tax Savings")]%string in
  let user := mkUser "u1" "marcus@ledgerloop.app" "Marcus Lee" "USER" in
  let db := mkDb [] [] [] in
  ~ (0 < 0 /\ 0 <= 1)
  /\ ruleSchema body
     = ZOk (mkRuleData None "Tax Reserve" 0 "Tax Savings" None)
  /\ status (fst (post_autopilot_rules db "r1" (mkRequest (Some user) body)))
     = 201%nat.
Proof.
  cbv zeta. split; [|split; reflexivity].
  intros [H _]. exact (Qlt_irrefl 0 H).
Qed.

(** C4, amended. The rule-creation operation accepts a rule's percentage
    if and only if it lies in the closed interval [0, 1]: a body whose
    other fields are valid parses exactly when 0 <= p <= 1, and otherwise
    the handler answers 400 and stores nothing.  The forecast does not
    validate percentages again: an active rule enters the accrual as
    balance * percentage whatever its percentage. *)
Theorem percentage_validation (o : jsobject) (i : option string)
    (n d : string) (a : option bool) (p : Q) :
  other_fields_ok o i n d a ->
  lookup "percentage" o = Some (JNumber p) ->
  (ruleSchema (ObjectBody o) = ZOk (mkRuleData i n p d a)
   <-> 0 <= p /\ p <= 1)
  /\ (~ (0 <= p /\ p <= 1) ->
      forall (db : Db) (newId : string) (user : User),
        post_autopilot_rules db newId (mkRequest (Some user) (ObjectBody o))
        = (mkResponse 400 (ValidationFailed ["percentage"%string]), db))
  /\ (forall (acct : FinanceAccount) (txs : list Transaction)
             (r : AutopilotRule),
        active r = true ->
        autopilot (mkAccountGraph acct txs [r])
        == balance acct * percentage r).
Proof.
  intros Hok Hp. split; [|split].
  - split.
    + intros Hs. apply z_percentage_accepts.
      destruct (z_percentage (Some (JNumber p))) as [x|] eqn:E.
      * rewrite <- Hp in E.
        rewrite (ruleSchema_ok o i n d a x Hok E) in Hs.
        now injection Hs as ->.
      * rewrite <- Hp in E.
        rewrite (ruleSchema_bad_percentage o i n d a Hok E) in Hs.
        discriminate.
    + intros Hv. apply z_percentage_accepts in Hv. rewrite <- Hp in Hv.
      now apply ruleSchema_ok.
  - intros Hn db newId user. unfold post_autopilot_rules.
    cbn [req_user req_body].
    rewrite (ruleSchema_bad_percentage o i n d a Hok); [reflexivity|].
    rewrite Hp. now apply z_percentage_reject.
  - intros acct txs r Hr. unfold autopilot. simpl.
    rewrite (autopilot_step_active _ _ _ Hr). ring.
Qed.

Lemma percentage_validation_witness :
  let o := [("name", JString "Tax Reserve");
            ("percentage", JNumber 0.3);
            ("destination", JString "Tax Savings")]%string in
  other_fields_ok o None "Tax Reserve" "Tax Savings" None
  /\ lookup "percentage" o = Some (JNumber 0.3)
  /\ ruleSchema (ObjectBody o)
     = ZOk (mkRuleData None "Tax Reserve" 0.3 "Tax Savings" None).
Proof.
  cbv zeta.
  assert (Hok : other_fields_ok
                  [("name", JString "Tax Reserve");
                   ("percentage", JNumber 0.3);
                   ("destination", JString "Tax Savings")]%string
                  None "Tax Reserve" "Tax Savings" None).
  { repeat split. }
  split; [exact Hok|]. split; [reflexivity|].
  apply (percentage_validation _ None "Tax Reserve" "Tax Savings" None 0.3
                               Hok eq_refl).
  split; vm_compute; discriminate.
Defined.

(** ** Rules created without an account *)

Lemma linked_none (acct : FinanceAccount) (r : AutopilotRule) :
  rule_accountId r = None -> linked acct r = false.
Proof. intros H. unfold linked. now rewrite H. Qed.

Lemma findMany_append_unlinked (db : Db) (r : AutopilotRule) (owner : string) :
  rule_accountId r = None ->
  findMany (mkDb (financeAccount db) (transaction db) (autopilotRule db ++ [r]))
           owner
  = findMany db owner.
Proof.
  intros Hr. unfold findMany. simpl. apply map_ext. intros acct.
  rewrite filter_app. simpl. rewrite (linked_none acct r Hr).
  now rewrite app_nil_r.
Qed.

Lemma findMany_rules_linked (db : Db) (owner : string) (g : AccountGraph)
    (r : AutopilotRule) :
  In g (findMany db owner) -> In r (autopilotRules g) ->
  linked (account g) r = true.
Proof.
  unfold findMany. intros Hg Hr. apply in_map_iff in Hg.
  destruct Hg as [acct [<- _]]. simpl in *.
  apply filter_In in Hr. apply Hr.
Qed.

(** C10. A rule-creation request that omits accountId (its other fields
    valid) is accepted: the handler answers 201 and stores a rule owned by
    the caller and linked to no account.  That rule is among the rules of
    no account the forecast loads, so every forecast is what it was before
    the rule was created. *)
Theorem unlinked_rule_inert (db : Db) (newId : string) (user : User)
    (o : jsobject) (n d : string) (a : option bool) (p : Q) :
  lookup "accountId" o = None ->
  other_fields_ok o None n d a ->
  z_percentage (lookup "percentage" o) = Some p ->
  rule_exists db newId = false ->
  let rule := mkAutopilotRule newId n p d
                (match a with Some b => b | None => true end)
                (user_id user) None in
  let db' := mkDb (financeAccount db) (transaction db)
                  (autopilotRule db ++ [rule]) in
  post_autopilot_rules db newId (mkRequest (Some user) (ObjectBody o))
  = (mkResponse 201 (RuleBody rule), db')
  /\ rule_ownerId rule = user_id user
  /\ rule_accountId rule = None
  /\ (forall (owner : string) (g : AccountGraph),
        In g (findMany db' owner) -> ~ In rule (autopilotRules g))
  /\ (forall owner : string, findMany db' owner = findMany db owner)
  /\ (forall req : AuthedRequest, post_forecast db' req = post_forecast db req).
Proof.
  intros Hacc Hok Hp Hfresh. cbv zeta.
  split; [|split; [reflexivity|split; [reflexivity|split; [|split]]]].
  - unfold post_autopilot_rules. cbn [req_user req_body].
    rewrite (ruleSchema_ok o None n d a p Hok Hp).
    unfold autopilotRule_create. cbn [data_accountId].
    rewrite Hfresh. reflexivity.
  - intros owner g Hg Hr.
    pose proof (findMany_rules_linked _ _ _ _ Hg Hr) as Hl.
    rewrite linked_none in Hl by reflexivity. discriminate.
  - intros owner. now apply findMany_append_unlinked.
  - intros req. unfold post_forecast.
    destruct (req_user req) as [u|]; [|reflexivity].
    destruct (forecastSchema (req_body req)); [|reflexivity].
    now rewrite findMany_append_unlinked.
Qed.

Lemma unlinked_rule_inert_witness :
  let acct := mkFinanceAccount "a1" "Blue Ridge Checking" CHECKING "USD"
                               4200.32 "u1" in
  let db := mkDb [acct] [] [] in
  let user := mkUser "u1" "marcus@ledgerloop.app" "Marcus Lee" "USER" in
  let o := [("name", JString "Tax Reserve");
            ("percentage", JNumber 0.3);
            ("destination", JString "Tax Savings")]%string in
  lookup "accountId" o = None
  /\ other_fields_ok o None "Tax Reserve" "Tax Savings" None
  /\ z_percentage (lookup "percentage" o) = Some 0.3
  /\ rule_exists db "r1" = false
  /\ status (fst (post_autopilot_rules db "r1"
                    (mkRequest (Some user) (ObjectBody o)))) = 201%nat.
Proof.
  cbv zeta.
  assert (Hok : other_fields_ok
                  [("name", JString "Tax Reserve");
                   ("percentage", JNumber 0.3);
                   ("destination", JString "Tax Savings")]%string
                  None "Tax Reserve" "Tax Savings" None).
  { repeat split. }
  split; [reflexivity|]. split; [exact Hok|].
  split; [reflexivity|]. split; [reflexivity|].
  rewrite (proj1 (unlinked_rule_inert
                    (mkDb [mkFinanceAccount "a1" "Blue Ridge Checking"
                                            CHECKING "USD" 4200.32 "u1"]
                          [] [])
                    "r1"
                    (mkUser "u1" "marcus@ledgerloop.app" "Marcus Lee" "USER")
                    [("name", JString "Tax Reserve");
                     ("percentage", JNumber 0.3);
                     ("destination", JString "Tax Savings")]%string
                    "Tax Reserve" "Tax Savings" None 0.3
                    eq_refl Hok eq_refl eq_refl)).
  reflexivity.
Defined.

(** ** The store under the other handlers *)

Lemma account_exists_iff (db : Db) (i : string) :
  account_exists db i = true
  <-> exists a, In a (financeAccount db) /\ acct_id a = i.
Proof.
  unfold account_exists. rewrite existsb_exists. split.
  - intros [a [Ha He]]. exists a. split; [exact Ha|]. now apply String.eqb_eq.
  - intros [a [Ha He]]. exists a. split; [exact Ha|]. now apply String.eqb_eq.
Qed.

Lemma account_exists_in_ids (db : Db) (i : string) :
  account_exists db i = true <-> In i (map acct_id (financeAccount db)).
Proof.
  rewrite account_exists_iff, in_map_iff. split.
  - intros [a [Ha He]]. now exists a.
  - intros [a [He Ha]]. now exists a.
Qed.

Lemma transaction_exists_in_ids (db : Db) (i : string) :
  transaction_exists db i = true <-> In i (map tx_id (transaction db)).
Proof.
  unfold transaction_exists. rewrite existsb_exists, in_map_iff. split.
  - intros [t [Ht He]]. exists t. split; [now apply String.eqb_eq|exact Ht].
  - intros [t [He Ht]]. exists t. split; [exact Ht|now apply String.eqb_eq].
Qed.

Lemma rule_exists_in_ids (db : Db) (i : string) :
  rule_exists db i = true <-> In i (map rule_id (autopilotRule db)).
Proof.
  unfold rule_exists. rewrite existsb_exists, in_map_iff. split.
  - intros [r [Hr He]]. exists r. split; [now apply String.eqb_eq|exact Hr].
  - intros [r [He Hr]]. exists r. split; [exact Hr|now apply String.eqb_eq].
Qed.

Lemma not_true_false (b : bool) : b <> true -> b = false.
Proof. now destruct b. Qed.

Lemma NoDup_snoc {A : Type} (l : list A) (x : A) :
  NoDup l -> ~ In x l -> NoDup (l ++ [x]).
Proof.
  intros Hl Hx. induction Hl as [|y l Hy _ IH]; simpl.
  - constructor; [intros []|constructor].
  - constructor.
    + rewrite in_app_iff. intros [H|[H|[]]]; [now apply Hy|].
      subst y. apply Hx. now left.
    + apply IH. intros H. apply Hx. now right.
Qed.

Lemma findFirst_some (db : Db) (i owner : string) (a : FinanceAccount) :
  findFirst db i owner = Some a ->
  In a (financeAccount db) /\ acct_id a = i /\ acct_ownerId a = owner.
Proof.
  unfold findFirst. intros H. apply find_some in H. destruct H as [Hin Hp].
  apply andb_true_iff in Hp. destruct Hp as [H1 H2].
  apply String.eqb_eq in H1. apply String.eqb_eq in H2. now repeat split.
Qed.

Lemma findFirst_none (db : Db) (i owner : string) :
  findFirst db i owner = None <->
  forall a, In a (financeAccount db) -> acct_id a = i ->
            acct_ownerId a <> owner.
Proof.
  unfold findFirst. split.
  - intros H a Ha Hi Ho.
    pose proof (find_none _ _ H a Ha) as Hf. simpl in Hf.
    rewrite Hi, Ho, !String.eqb_refl in Hf. discriminate.
  - intros H.
    destruct (find _ (financeAccount db)) as [a|] eqn:E; [|reflexivity].
    apply find_some in E. destruct E as [Hin Hp].
    apply andb_true_iff in Hp. destruct Hp as [H1 H2].
    apply String.eqb_eq in H1. apply String.eqb_eq in H2.
    now destruct (H a Hin H1).
Qed.

(** The graph of an account with no transaction and no rule projects to
    its balance. *)
Lemma projected_bare (acct : FinanceAccount) (h : Q) :
  projected h (mkAccountGraph acct [] []) == balance acct
  /\ autopilot (mkAccountGraph acct [] []) == 0.
Proof.
  split; [|reflexivity].
  unfold projected, inflows, outflows, autopilot, max_len_1. simpl.
  unfold Qdiv. ring.
Qed.

Lemma filter_none {A : Type} (p : A -> bool) (l : list A) :
  (forall x, In x l -> p x = false) -> filter p l = [].
Proof.
  induction l as [|x l IH]; intros H; simpl; [reflexivity|].
  rewrite (H x (or_introl eq_refl)). apply IH.
  intros y Hy. apply H. now right.
Qed.

Lemma findMany_new_account (db : Db) (acct : FinanceAccount) (owner : string) :
  store_ok db ->
  account_exists db (acct_id acct) = false ->
  findMany (mkDb (financeAccount db ++ [acct]) (transaction db)
                 (autopilotRule db)) owner
  = findMany db owner
    ++ (if String.eqb (acct_ownerId acct) owner
        then [mkAccountGraph acct [] []] else []).
Proof.
  intros (_ & _ & _ & Htx & Hrl) Hfresh.
  unfold findMany. simpl. rewrite filter_app, map_app. f_equal. simpl.
  destruct (String.eqb (acct_ownerId acct) owner); [|reflexivity].
  simpl. f_equal. f_equal.
  - apply filter_none. intros t Ht.
    rewrite Forall_forall in Htx. specialize (Htx t Ht).
    destruct (String.eqb (tx_accountId t) (acct_id acct)) eqn:E;
      [|reflexivity].
    apply String.eqb_eq in E. rewrite E in Htx. congruence.
  - apply filter_none. intros r Hr.
    rewrite Forall_forall in Hrl. specialize (Hrl r Hr).
    unfold linked. destruct (rule_accountId r) as [i|]; [|reflexivity].
    destruct (String.eqb i (acct_id acct)) eqn:E; [|reflexivity].
    apply String.eqb_eq in E. rewrite E in Hrl. congruence.
Qed.

(** X1. Creating an account and then forecasting: a valid POST /accounts
    (with an identifier not yet in a store that keeps its foreign keys)
    answers 201 and stores the account under the caller; the caller's next
    forecast, for any valid horizon, is the old rows followed by one row
    for the new account, whose projection is its balance and whose
    autopilot is 0. *)
Theorem fresh_account_forecast (db : Db) (newId : string) (user : User)
    (body fbody : Body) (data : AccountData) (h : Q) :
  store_ok db ->
  account_exists db newId = false ->
  accountSchema body = ZOk data ->
  forecastSchema fbody = ZOk h ->
  let acct := mkFinanceAccount newId (data_acct_name data) (data_type data)
                (data_currency data) (data_balance data) (user_id user) in
  let db' := mkDb (financeAccount db ++ [acct]) (transaction db)
                  (autopilotRule db) in
  post_accounts db newId (mkRequest (Some user) body) = (Json201 acct, db')
  /\ exists row : ForecastRow,
       post_forecast db' (mkRequest (Some user) fbody)
       = mkResponse 200
           (ForecastBody (map (forecast_row h) (findMany db (user_id user))
                          ++ [row]))
       /\ row_accountId row = newId
       /\ row_balance row = data_balance data
       /\ row_projected row == data_balance data
       /\ row_autopilot row == 0.
Proof.
  intros Hok Hfresh Hbody Hf. cbv zeta.
  set (acct := mkFinanceAccount newId (data_acct_name data) (data_type data)
                 (data_currency data) (data_balance data) (user_id user)).
  split.
  - unfold post_accounts. cbn [req_user req_body]. rewrite Hbody.
    unfold financeAccount_create. now rewrite Hfresh.
  - exists (forecast_row h (mkAccountGraph acct [] [])). split.
    + rewrite (post_forecast_ok _ _ _ _ Hf).
      rewrite (findMany_new_account db acct (user_id user) Hok Hfresh).
      cbn [acct_ownerId acct]. rewrite String.eqb_refl, map_app. reflexivity.
    + split; [reflexivity|]. split; [reflexivity|].
      apply (projected_bare acct h).
Qed.

Lemma fresh_account_forecast_witness :
  let user := mkUser "u1" "marcus@ledgerloop.app" "Marcus Lee" "USER" in
  let body := ObjectBody [("name", JString "Creator Checking");
                          ("type", JString "CHECKING");
                          ("currency", JString "USD");
                          ("balance", JNumber 4200)]%string in
  let fbody := ObjectBody [("horizonDays"%string, JNumber 60)] in
  let db := mkDb [] [] [] in
  store_ok db
  /\ outcome_status (fst (post_accounts db "a1" (mkRequest (Some user) body)))
     = 201%nat.
Proof.
  cbv zeta.
  assert (Hok : store_ok (mkDb [] [] [])).
  { repeat split; constructor. }
  split; [exact Hok|].
  rewrite (proj1 (fresh_account_forecast
                    (mkDb [] [] []) "a1"
                    (mkUser "u1" "marcus@ledgerloop.app" "Marcus Lee" "USER")
                    (ObjectBody [("name", JString "Creator Checking");
                                 ("type", JString "CHECKING");
                                 ("currency", JString "USD");
                                 ("balance", JNumber 4200)]%string)
                    (ObjectBody [("horizonDays"%string, JNumber 60)])
                    (mkAccountData "Creator Checking" CHECKING "USD" 4200)
                    60 Hok eq_refl eq_refl eq_refl)).
  reflexivity.
Defined.

(** X2. A transaction cannot be posted to an account that is not the
    caller's: when no stored account has the requested id together with
    the caller as owner (the id is unknown, or the account is someone
    else's), a valid request is answered 404 and the store is left as it
    was. *)
Theorem post_transactions_foreign_account (datetime : string -> bool)
    (db : Db) (newId : string) (user : User) (body : Body)
    (data : TransactionData) :
  transactionSchema datetime body = ZOk data ->
  (forall a, In a (financeAccount db) ->
             acct_id a = tdata_accountId data ->
             acct_ownerId a <> user_id user) ->
  post_transactions datetime db newId (mkRequest (Some user) body)
  = (Json404 "Account not found", db).
Proof.
  intros Hb Hno. unfold post_transactions. cbn [req_user req_body].
  rewrite Hb. apply findFirst_none in Hno. now rewrite Hno.
Qed.

Lemma post_transactions_foreign_account_witness :
  let acct := mkFinanceAccount "a1" "Blue Ridge Checking" CHECKING "USD"
                               4200.32 "u1" in
  let intruder := mkUser "u2" "mallory@example.com" "Mallory" "USER" in
  let body := ObjectBody [("accountId", JString "a1");
                          ("description", JString "Studio Rent");
                          ("amount", JNumber (-950));
                          ("category", JString "Housing");
                          ("occurredAt", JString "2025-11-08T00:00:00.000Z")]%string in
  let db := mkDb [acct] [] [] in
  post_transactions (fun _ => true) db "t1" (mkRequest (Some intruder) body)
  = (Json404 "Account not found", db).
Proof.
  cbv zeta.
  apply (post_transactions_foreign_account
           (fun _ => true) _ "t1"
           (mkUser "u2" "mallory@example.com" "Mallory" "USER")
           _
           (mkTransactionData "a1" "Studio Rent" (-950) "Housing"
                              "2025-11-08T00:00:00.000Z")).
  - reflexivity.
  - intros a [<-|[]] _. discriminate.
Defined.

Lemma findMany_new_transaction (db : Db) (t : Transaction) (owner : string) :
  findMany (mkDb (financeAccount db) (transaction db ++ [t])
                 (autopilotRule db)) owner
  = map (fun g =>
           if String.eqb (tx_accountId t) (acct_id (account g))
           then mkAccountGraph (account g) (transactions g ++ [t])
                               (autopilotRules g)
           else g)
        (findMany db owner).
Proof.
  unfold findMany. simpl. rewrite map_map. apply map_ext. intros a. simpl.
  rewrite filter_app. simpl.
  destruct (String.eqb (tx_accountId t) (acct_id a)); [reflexivity|].
  now rewrite app_nil_r.
Qed.

Lemma findMany_new_rule (db : Db) (r : AutopilotRule) (owner : string) :
  findMany (mkDb (financeAccount db) (transaction db)
                 (autopilotRule db ++ [r])) owner
  = map (fun g =>
           if linked (account g) r
           then mkAccountGraph (account g) (transactions g)
                               (autopilotRules g ++ [r])
           else g)
        (findMany db owner).
Proof.
  unfold findMany. simpl. rewrite map_map. apply map_ext. intros a. simpl.
  rewrite filter_app. simpl.
  destruct (linked a r); [reflexivity|].
  now rewrite app_nil_r.
Qed.

Lemma Qsum_snoc (l : list Q) (x : Q) : Qsum (l ++ [x]) == Qsum l + x.
Proof. rewrite Qsum_app. simpl. ring. Qed.

(** X3. Posting a valid transaction to an account of the caller answers
    201 and appends the transaction to that account's history and to no
    other (account rows, balances included, and rules are untouched).  In
    the forecast the account's balance and autopilot terms therefore stay
    as they were, and its netPerTransaction becomes
    (old sum of amounts + amount) / (old count + 1). *)
Theorem post_transactions_effect (datetime : string -> bool) (db : Db)
    (newId : string) (user : User) (body : Body) (data : TransactionData)
    (acct : FinanceAccount) :
  transactionSchema datetime body = ZOk data ->
  findFirst db (tdata_accountId data) (user_id user) = Some acct ->
  transaction_exists db newId = false ->
  let t := mkTransaction newId (tdata_description data) (tdata_amount data)
             (tdata_category data) (tdata_occurredAt data)
             (tdata_accountId data) in
  let db' := mkDb (financeAccount db) (transaction db ++ [t])
                  (autopilotRule db) in
  post_transactions datetime db newId (mkRequest (Some user) body)
  = (Json201 t, db')
  /\ (forall owner : string,
        findMany db' owner
        = map (fun g =>
                 if String.eqb (tdata_accountId data) (acct_id (account g))
                 then mkAccountGraph (account g) (transactions g ++ [t])
                                     (autopilotRules g)
                 else g)
              (findMany db owner))
  /\ (forall g : AccountGraph,
        let g' := mkAccountGraph (account g) (transactions g ++ [t])
                                 (autopilotRules g) in
        autopilot g' = autopilot g
        /\ netPerTransaction g'
           == (Qsum (map amount (transactions g)) + tdata_amount data)
              / inject_Z (Z.of_nat (S (List.length (transactions g))))).
Proof.
  intros Hb Hfind Hfresh. cbv zeta.
  destruct (findFirst_some _ _ _ _ Hfind) as (_ & Hid & _).
  split; [|split].
  - unfold post_transactions. cbn [req_user req_body].
    rewrite Hb, Hfind. unfold transaction_create.
    now rewrite Hfresh, Hid.
  - intros owner. apply findMany_new_transaction.
  - intros g. split; [reflexivity|].
    rewrite netPerTransaction_plain_sum. cbn [transactions].
    rewrite map_app, Qsum_app, length_app.
    cbn [map Qsum List.length amount].
    replace (Nat.max (List.length (transactions g) + 1) 1)
      with (S (List.length (transactions g))) by lia.
    now rewrite Qplus_0_r.
Qed.

Lemma post_transactions_effect_witness :
  let acct := mkFinanceAccount "a1" "Blue Ridge Checking" CHECKING "USD"
                               4200.32 "u1" in
  let user := mkUser "u1" "marcus@ledgerloop.app" "Marcus Lee" "USER" in
  let body := ObjectBody [("accountId", JString "a1");
                          ("description", JString "Studio Rent");
                          ("amount", JNumber (-950));
                          ("category", JString "Housing");
                          ("occurredAt", JString "2025-11-08T00:00:00.000Z")]%string in
  let db := mkDb [acct] [] [] in
  findFirst db "a1" "u1" = Some acct
  /\ outcome_status
       (fst (post_transactions (fun _ => true) db "t1"
                               (mkRequest (Some user) body)))
     = 201%nat.
Proof.
  cbv zeta. split; [reflexivity|].
  rewrite (proj1 (post_transactions_effect
                    (fun _ => true)
                    (mkDb [mkFinanceAccount "a1" "Blue Ridge Checking"
                                            CHECKING "USD" 4200.32 "u1"]
                          [] [])
                    "t1"
                    (mkUser "u1" "marcus@ledgerloop.app" "Marcus Lee" "USER")
                    (ObjectBody [("accountId", JString "a1");
                                 ("description", JString "Studio Rent");
                                 ("amount", JNumber (-950));
                                 ("category", JString "Housing");
                                 ("occurredAt",
                                  JString "2025-11-08T00:00:00.000Z")]%string)
                    (mkTransactionData "a1" "Studio Rent" (-950) "Housing"
                                       "2025-11-08T00:00:00.000Z")
                    (mkFinanceAccount "a1" "Blue Ridge Checking" CHECKING
                                      "USD" 4200.32 "u1")
                    eq_refl eq_refl eq_refl)).
  reflexivity.
Defined.

(** X4. Rule creation does not check who owns the account it names: a
    valid request naming any stored account, whoever its owner, is
    answered 201, and from then on the rule is among that account's rules
    in every forecast of the account's owner.  The autopilot of such an
    account grows by balance * percentage when the rule is active and is
    unchanged otherwise. *)
Theorem rule_links_any_account (db : Db) (newId : string) (user : User)
    (o : jsobject) (i n d : string) (a : option bool) (p : Q) :
  other_fields_ok o (Some i) n d a ->
  z_percentage (lookup "percentage" o) = Some p ->
  account_exists db i = true ->
  rule_exists db newId = false ->
  let rule := mkAutopilotRule newId n p d
                (match a with Some b => b | None => true end)
                (user_id user) (Some i) in
  let db' := mkDb (financeAccount db) (transaction db)
                  (autopilotRule db ++ [rule]) in
  post_autopilot_rules db newId (mkRequest (Some user) (ObjectBody o))
  = (mkResponse 201 (RuleBody rule), db')
  /\ (forall owner : string,
        findMany db' owner
        = map (fun g =>
                 if String.eqb i (acct_id (account g))
                 then mkAccountGraph (account g) (transactions g)
                                     (autopilotRules g ++ [rule])
                 else g)
              (findMany db owner))
  /\ (forall g : AccountGraph,
        autopilot (mkAccountGraph (account g) (transactions g)
                                  (autopilotRules g ++ [rule]))
        == autopilot g
           + (if active rule then balance (account g) * p else 0)).
Proof.
  intros Hok Hp Hacc Hfresh. cbv zeta. split; [|split].
  - unfold post_autopilot_rules. cbn [req_user req_body].
    rewrite (ruleSchema_ok o (Some i) n d a p Hok Hp).
    unfold autopilotRule_create. cbn [data_accountId].
    rewrite Hfresh, Hacc. reflexivity.
  - intros owner. apply findMany_new_rule.
  - intros g. unfold autopilot. cbn [account autopilotRules].
    rewrite fold_left_app. cbn [fold_left]. unfold autopilot_step at 1.
    cbn [active percentage].
    destruct a as [[|]|]; simpl; ring.
Qed.

Lemma rule_links_any_account_witness :
  let acct := mkFinanceAccount "a1" "Blue Ridge Checking" CHECKING "USD"
                               4200.32 "u1" in
  let other := mkUser "u2" "mallory@example.com" "Mallory" "USER" in
  let o := [("accountId", JString "a1");
            ("name", JString "Skim");
            ("percentage", JNumber 1);
            ("destination", JString "Elsewhere")]%string in
  let db := mkDb [acct] [] [] in
  acct_ownerId acct <> user_id other
  /\ status (fst (post_autopilot_rules db "r1"
                    (mkRequest (Some other) (ObjectBody o)))) = 201%nat
  /\ Forall2 Qeq
        (map row_projected
             (map (forecast_row 30)
                  (findMany (snd (post_autopilot_rules db "r1"
                                    (mkRequest (Some other) (ObjectBody o))))
                            "u1")))
        [0].
Proof.
  cbv zeta. split; [discriminate|].
  assert (Hok : other_fields_ok
                  [("accountId", JString "a1");
                   ("name", JString "Skim");
                   ("percentage", JNumber 1);
                   ("destination", JString "Elsewhere")]%string
                  (Some "a1"%string) "Skim" "Elsewhere" None).
  { repeat split. }
  rewrite (proj1 (rule_links_any_account
                    (mkDb [mkFinanceAccount "a1" "Blue Ridge Checking"
                                            CHECKING "USD" 4200.32 "u1"]
                          [] [])
                    "r1"
                    (mkUser "u2" "mallory@example.com" "Mallory" "USER")
                    [("accountId", JString "a1");
                     ("name", JString "Skim");
                     ("percentage", JNumber 1);
                     ("destination", JString "Elsewhere")]%string
                    "a1" "Skim" "Elsewhere" None 1
                    Hok eq_refl eq_refl eq_refl)).
  split; [reflexivity|]. repeat constructor.
Defined.

(** X5. A rule request that names an account id not in the store is
    stopped by the foreign key: the handler answers 500 and stores
    nothing. *)
Theorem rule_unknown_account (db : Db) (newId : string) (user : User)
    (o : jsobject) (i n d : string) (a : option bool) (p : Q) :
  other_fields_ok o (Some i) n d a ->
  z_percentage (lookup "percentage" o) = Some p ->
  account_exists db i = false ->
  exists message : string,
    post_autopilot_rules db newId (mkRequest (Some user) (ObjectBody o))
    = (mkResponse 500 (MessageBody message), db).
Proof.
  intros Hok Hp Hacc.
  unfold post_autopilot_rules. cbn [req_user req_body].
  rewrite (ruleSchema_ok o (Some i) n d a p Hok Hp).
  unfold autopilotRule_create. cbn [data_accountId]. rewrite Hacc.
  destruct (rule_exists db newId); eexists; reflexivity.
Qed.

Lemma rule_unknown_account_witness :
  let user := mkUser "u1" "marcus@ledgerloop.app" "Marcus Lee" "USER" in
  let o := [("accountId", JString "nope");
            ("name", JString "Tax Reserve");
            ("percentage", JNumber 0.3);
            ("destination", JString "Tax Savings")]%string in
  exists message : string,
    post_autopilot_rules (mkDb [] [] []) "r1"
                         (mkRequest (Some user) (ObjectBody o))
    = (mkResponse 500 (MessageBody message), mkDb [] [] []).
Proof.
  cbv zeta.
  apply (rule_unknown_account
           (mkDb [] [] []) "r1"
           (mkUser "u1" "marcus@ledgerloop.app" "Marcus Lee" "USER")
           [("accountId", JString "nope");
            ("name", JString "Tax Reserve");
            ("percentage", JNumber 0.3);
            ("destination", JString "Tax Savings")]%string
           "nope" "Tax Reserve" "Tax Savings" None 0.3).
  - repeat split.
  - reflexivity.
  - reflexivity.
Defined.

(** ** Invariants of the store along requests *)

Lemma account_exists_grow (db : Db) (a : FinanceAccount)
    (txs : list Transaction) (rules : list AutopilotRule) (i : string) :
  account_exists db i = true ->
  account_exists (mkDb (financeAccount db ++ [a]) txs rules) i = true.
Proof.
  unfold account_exists. simpl. rewrite existsb_app. intros ->. reflexivity.
Qed.

(** What one request can do to the store: nothing, or append one row that
    respects the keys. *)
Lemma finance_step_shape (datetime : string -> bool) (db : Db)
    (r : FinanceRequest) :
  (snd (finance_step datetime db r) = db
   /\ fst (finance_step datetime db r) <> 201%nat)
  \/ (fst (finance_step datetime db r) = 201%nat
      /\ ((exists a, snd (finance_step datetime db r)
                     = mkDb (financeAccount db ++ [a]) (transaction db)
                            (autopilotRule db)
                     /\ account_exists db (acct_id a) = false)
          \/ (exists t, snd (finance_step datetime db r)
                        = mkDb (financeAccount db) (transaction db ++ [t])
                               (autopilotRule db)
                        /\ transaction_exists db (tx_id t) = false
                        /\ account_exists db (tx_accountId t) = true)
          \/ (exists rl, snd (finance_step datetime db r)
                         = mkDb (financeAccount db) (transaction db)
                                (autopilotRule db ++ [rl])
                         /\ rule_exists db (rule_id rl) = false
                         /\ match rule_accountId rl with
                            | Some i => account_exists db i = true
                            | None => True
                            end))).
Proof.
  destruct r as [newId req|newId req|newId req|req]; simpl.
  - unfold post_accounts.
    destruct (req_user req) as [u|]; [|left; split; [reflexivity|discriminate]].
    destruct (accountSchema (req_body req)) as [data|issues];
      [|left; split; [reflexivity|discriminate]].
    unfold financeAccount_create.
    destruct (account_exists db newId) eqn:E;
      [left; split; [reflexivity|discriminate]|].
    right. split; [reflexivity|]. left. eexists. split; [reflexivity|exact E].
  - unfold post_transactions.
    destruct (req_user req) as [u|]; [|left; split; [reflexivity|discriminate]].
    destruct (transactionSchema datetime (req_body req)) as [data|issues];
      [|left; split; [reflexivity|discriminate]].
    destruct (findFirst db (tdata_accountId data) (user_id u)) as [acct|] eqn:F;
      [|left; split; [reflexivity|discriminate]].
    unfold transaction_create.
    destruct (transaction_exists db newId) eqn:E;
      [left; split; [reflexivity|discriminate]|].
    right. split; [reflexivity|]. right. left.
    eexists. split; [reflexivity|]. split; [exact E|].
    simpl. apply account_exists_iff. exists acct.
    destruct (findFirst_some _ _ _ _ F) as (Hin & _ & _). now split.
  - unfold post_autopilot_rules.
    destruct (req_user req) as [u|]; [|left; split; [reflexivity|discriminate]].
    destruct (ruleSchema (req_body req)) as [data|issues];
      [|left; split; [reflexivity|discriminate]].
    unfold autopilotRule_create.
    destruct (rule_exists db newId) eqn:E;
      [left; split; [reflexivity|discriminate]|].
    destruct (data_accountId data) as [i|] eqn:Hi.
    + destruct (account_exists db i) eqn:Ha; simpl;
        [|left; split; [reflexivity|discriminate]].
      right. split; [reflexivity|]. right. right.
      eexists. split; [reflexivity|]. split; [exact E|exact Ha].
    + simpl. right. split; [reflexivity|]. right. right.
      eexists. split; [reflexivity|]. split; [exact E|exact I].
  - left. split; [reflexivity|].
    unfold post_forecast.
    destruct (req_user req); [|discriminate].
    destruct (forecastSchema (req_body req)); discriminate.
Qed.

Lemma store_ok_step (datetime : string -> bool) (db : Db)
    (r : FinanceRequest) :
  store_ok db -> store_ok (snd (finance_step datetime db r)).
Proof.
  intros Hok.
  destruct (finance_step_shape datetime db r)
    as [[-> _]|[_ [[a [-> Ha]]|[[t [-> [Ht Hacc]]]|[rl [-> [Hr Hacc]]]]]]];
    [exact Hok| | |];
    destruct Hok as (Na & Nt & Nr & Ft & Fr); unfold store_ok; simpl.
  - split; [|split; [exact Nt|split; [exact Nr|split]]].
    + rewrite map_app. simpl. apply NoDup_snoc; [exact Na|].
      rewrite <- account_exists_in_ids. congruence.
    + eapply Forall_impl; [|exact Ft]. intros t Ht.
      now apply account_exists_grow.
    + eapply Forall_impl; [|exact Fr]. intros rl. cbv beta.
      destruct (rule_accountId rl); [|trivial].
      apply account_exists_grow.
  - split; [exact Na|split; [|split; [exact Nr|split; [|exact Fr]]]].
    + rewrite map_app. simpl. apply NoDup_snoc; [exact Nt|].
      rewrite <- transaction_exists_in_ids. congruence.
    + apply Forall_app. split; [exact Ft|]. constructor; [exact Hacc|constructor].
  - split; [exact Na|split; [exact Nt|split; [|split; [exact Ft|]]]].
    + rewrite map_app. simpl. apply NoDup_snoc; [exact Nr|].
      rewrite <- rule_exists_in_ids. congruence.
    + apply Forall_app. split; [exact Fr|]. constructor; [exact Hacc|constructor].
Qed.

Lemma accounts_prefix_step (datetime : string -> bool) (db : Db)
    (r : FinanceRequest) :
  exists l, financeAccount (snd (finance_step datetime db r))
            = financeAccount db ++ l.
Proof.
  destruct (finance_step_shape datetime db r)
    as [[-> _]|[_ [[a [-> _]]|[[t [-> _]]|[rl [-> _]]]]]]; simpl.
  - exists []. now rewrite app_nil_r.
  - now exists [a].
  - exists []. now rewrite app_nil_r.
  - exists []. now rewrite app_nil_r.
Qed.

Lemma store_ok_run (datetime : string -> bool) (rs : list FinanceRequest)
    (db : Db) :
  store_ok db -> store_ok (finance_run datetime db rs).
Proof.
  unfold finance_run. revert db.
  induction rs as [|r rs IH]; intros db Hok; cbn [fold_left]; [exact Hok|].
  apply IH. now apply store_ok_step.
Qed.

Lemma accounts_prefix_run (datetime : string -> bool)
    (rs : list FinanceRequest) (db : Db) :
  exists l, financeAccount (finance_run datetime db rs)
            = financeAccount db ++ l.
Proof.
  unfold finance_run. revert db.
  induction rs as [|r rs IH]; intros db; cbn [fold_left].
  - exists []. now rewrite app_nil_r.
  - destruct (IH (snd (finance_step datetime db r))) as [l2 H2].
    destruct (accounts_prefix_step datetime db r) as [l1 H1].
    exists (l1 ++ l2). rewrite H2, H1.
    now rewrite app_assoc.
Qed.

(** X6. Every sequence of finance requests, whatever the bodies, callers
    and drawn identifiers, keeps the referential integrity of the store:
    identifiers stay unique in each table, every transaction points at a
    stored account, and every rule that names an account points at a
    stored one.  In particular every store reached from the empty one has
    it. *)
Theorem store_integrity_preserved (datetime : string -> bool)
    (rs : list FinanceRequest) (db : Db) :
  (store_ok db -> store_ok (finance_run datetime db rs))
  /\ store_ok (finance_run datetime (mkDb [] [] []) rs).
Proof.
  split.
  - apply store_ok_run.
  - apply store_ok_run. repeat split; constructor.
Qed.

Lemma store_integrity_preserved_witness :
  let user := mkUser "u1" "marcus@ledgerloop.app" "Marcus Lee" "USER" in
  let body := ObjectBody [("name", JString "Creator Checking");
                          ("type", JString "CHECKING");
                          ("currency", JString "USD");
                          ("balance", JNumber 4200)]%string in
  let rs := [PostAccounts "a1" (mkRequest (Some user) body);
             PostAccounts "a1" (mkRequest (Some user) body)] in
  store_ok (mkDb [] [] [])
  /\ store_ok (finance_run (fun _ => true) (mkDb [] [] []) rs)
  /\ List.length (financeAccount (finance_run (fun _ => true)
                                              (mkDb [] [] []) rs)) = 1%nat.
Proof.
  cbv zeta.
  assert (Hok : store_ok (mkDb [] [] [])) by (repeat split; constructor).
  split; [exact Hok|]. split; [|reflexivity].
  apply (proj1 (store_integrity_preserved (fun _ => true) _ (mkDb [] [] []))).
  exact Hok.
Defined.

(** X7. No finance request changes an account once it is stored: in a
    store that keeps its keys, after any sequence of requests every
    account is still there, and any stored account with the same id is
    that very row, balance included.  Posting transactions or rules does
    not move a balance. *)
Theorem account_rows_never_change (datetime : string -> bool)
    (rs : list FinanceRequest) (db : Db) (a : FinanceAccount) :
  store_ok db ->
  In a (financeAccount db) ->
  In a (financeAccount (finance_run datetime db rs))
  /\ forall a' : FinanceAccount,
       In a' (financeAccount (finance_run datetime db rs)) ->
       acct_id a' = acct_id a ->
       a' = a /\ balance a' = balance a.
Proof.
  intros Hok Ha.
  destruct (accounts_prefix_run datetime rs db) as [l Hl].
  assert (Hin : In a (financeAccount (finance_run datetime db rs))).
  { rewrite Hl. apply in_or_app. now left. }
  split; [exact Hin|].
  intros a' Ha' Hid.
  pose proof (store_ok_run datetime rs db Hok) as (Nd & _).
  assert (E : a' = a).
  { revert Nd Hin Ha' Hid.
    generalize (financeAccount (finance_run datetime db rs)).
    intros accts. induction accts as [|x accts IH]; intros Nd Hin Ha' Hid.
    - destruct Hin.
    - simpl in Nd. inversion Nd as [|? ? Hx Nd']; subst.
      destruct Hin as [->|Hin]; destruct Ha' as [->|Ha'].
      + reflexivity.
      + exfalso. apply Hx. rewrite <- Hid. now apply in_map.
      + exfalso. apply Hx. rewrite Hid. now apply in_map.
      + now apply IH. }
  now subst a'.
Qed.

Lemma account_rows_never_change_witness :
  let acct := mkFinanceAccount "a1" "Blue Ridge Checking" CHECKING "USD"
                               4200.32 "u1" in
  let user := mkUser "u1" "marcus@ledgerloop.app" "Marcus Lee" "USER" in
  let body := ObjectBody [("accountId", JString "a1");
                          ("description", JString "Studio Rent");
                          ("amount", JNumber (-950));
                          ("category", JString "Housing");
                          ("occurredAt", JString "2025-11-08T00:00:00.000Z")]%string in
  let db := mkDb [acct] [] [] in
  let rs := [PostTransactions "t1" (mkRequest (Some user) body)] in
  store_ok db
  /\ List.length (transaction (finance_run (fun _ => true) db rs)) = 1%nat
  /\ In acct (financeAccount (finance_run (fun _ => true) db rs)).
Proof.
  cbv zeta.
  assert (Hok : store_ok
                  (mkDb [mkFinanceAccount "a1" "Blue Ridge Checking" CHECKING
                                          "USD" 4200.32 "u1"] [] [])).
  { repeat split; repeat constructor. intros []. }
  split; [exact Hok|]. split; [reflexivity|].
  apply (account_rows_never_change (fun _ => true) _ _ _ Hok).
  now left.
Defined.

(** X8. Only a 201 answer writes, and it writes one row: a finance
    request answered with any other status (200, 400, 401, 404, 500)
    leaves the store exactly as it was; a 201 from /accounts appends
    exactly one account and leaves transactions and rules as they were, a
    201 from /transactions appends exactly one transaction and nothing
    else, a 201 from /autopilot-rules appends exactly one rule and
    nothing else, and /forecast never answers 201. *)
Theorem only_created_writes (datetime : string -> bool) (db : Db)
    (r : FinanceRequest) :
  let st := fst (finance_step datetime db r) in
  let db' := snd (finance_step datetime db r) in
  (st <> 201%nat -> db' = db)
  /\ (st = 201%nat ->
      match r with
      | PostAccounts newId _ =>
          exists a, acct_id a = newId
                    /\ db' = mkDb (financeAccount db ++ [a]) (transaction db)
                                  (autopilotRule db)
      | PostTransactions newId _ =>
          exists t, tx_id t = newId
                    /\ db' = mkDb (financeAccount db) (transaction db ++ [t])
                                  (autopilotRule db)
      | PostAutopilotRules newId _ =>
          exists rl, rule_id rl = newId
                     /\ db' = mkDb (financeAccount db) (transaction db)
                                   (autopilotRule db ++ [rl])
      | PostForecast _ => False
      end).
Proof.
  cbv zeta. destruct r as [newId req|newId req|newId req|req]; simpl.
  - unfold post_accounts.
    destruct (req_user req) as [u|];
      [|split; [reflexivity|discriminate]].
    destruct (accountSchema (req_body req)) as [data|issues];
      [|split; [reflexivity|discriminate]].
    unfold financeAccount_create.
    destruct (account_exists db newId);
      [split; [reflexivity|discriminate]|].
    simpl. split; [intros H; now destruct H|].
    intros _. eexists. split; [|reflexivity]. reflexivity.
  - unfold post_transactions.
    destruct (req_user req) as [u|];
      [|split; [reflexivity|discriminate]].
    destruct (transactionSchema datetime (req_body req)) as [data|issues];
      [|split; [reflexivity|discriminate]].
    destruct (findFirst db (tdata_accountId data) (user_id u)) as [acct|];
      [|split; [reflexivity|discriminate]].
    unfold transaction_create.
    destruct (transaction_exists db newId);
      [split; [reflexivity|discriminate]|].
    simpl. split; [intros H; now destruct H|].
    intros _. eexists. split; [|reflexivity]. reflexivity.
  - unfold post_autopilot_rules.
    destruct (req_user req) as [u|];
      [|split; [reflexivity|discriminate]].
    destruct (ruleSchema (req_body req)) as [data|issues];
      [|split; [reflexivity|discriminate]].
    unfold autopilotRule_create.
    destruct (rule_exists db newId);
      [split; [reflexivity|discriminate]|].
    destruct (negb _); [split; [reflexivity|discriminate]|].
    simpl. split; [intros H; now destruct H|].
    intros _. eexists. split; [|reflexivity]. reflexivity.
  - split; [reflexivity|].
    unfold post_forecast.
    destruct (req_user req); [|discriminate].
    destruct (forecastSchema (req_body req)); discriminate.
Qed.

Lemma only_created_writes_witness :
  let user := mkUser "u1" "marcus@ledgerloop.app" "Marcus Lee" "USER" in
  let body := ObjectBody [("name", JString "Creator Checking");
                          ("type", JString "CHECKING");
                          ("currency", JString "USD");
                          ("balance", JNumber 4200)]%string in
  let db := mkDb [] [] [] in
  let refused := PostAccounts "a1" (mkRequest None body) in
  let created := PostAccounts "a1" (mkRequest (Some user) body) in
  fst (finance_step (fun _ => true) db refused) <> 201%nat
  /\ snd (finance_step (fun _ => true) db refused) = db
  /\ fst (finance_step (fun _ => true) db created) = 201%nat
  /\ exists a,
       acct_id a = "a1"%string
       /\ snd (finance_step (fun _ => true) db created) = mkDb [a] [] [].
Proof.
  cbv zeta.
  assert (H : fst (finance_step (fun _ => true) (mkDb [] [] [])
                     (PostAccounts "a1"
                        (mkRequest None
                           (ObjectBody [("name", JString "Creator Checking");
                                        ("type", JString "CHECKING");
                                        ("currency", JString "USD");
                                        ("balance", JNumber 4200)]%string))))
              <> 201%nat) by discriminate.
  split; [exact H|].
  split; [apply (proj1 (only_created_writes (fun _ => true) _ _) H)|].
  split; [reflexivity|].
  apply (proj2 (only_created_writes
                  (fun _ => true) (mkDb [] [] [])
                  (PostAccounts "a1"
                     (mkRequest
                        (Some (mkUser "u1" "marcus@ledgerloop.app"
                                      "Marcus Lee" "USER"))
                        (ObjectBody [("name", JString "Creator Checking");
                                     ("type", JString "CHECKING");
                                     ("currency", JString "USD");
                                     ("balance", JNumber 4200)]%string))))
               eq_refl).
Defined.

(** X9. A forecast never shows another user's account: whenever the
    handler answers with forecast rows, the request was authenticated and
    its horizon valid, there is exactly one row per stored account of the
    caller, in store order, and every row carries that horizon and the id
    and balance of an account the caller owns. *)
Theorem forecast_rows_are_own (db : Db) (req : AuthedRequest)
    (st : nat) (rows : list ForecastRow) :
  post_forecast db req = mkResponse st (ForecastBody rows) ->
  exists (user : User) (h : Q),
    req_user req = Some user
    /\ forecastSchema (req_body req) = ZOk h
    /\ st = 200%nat
    /\ map row_accountId rows
       = map acct_id
           (filter (fun a => String.eqb (acct_ownerId a) (user_id user))
                   (financeAccount db))
    /\ Forall (fun row =>
                 row_horizonDays row = h
                 /\ exists a, In a (financeAccount db)
                              /\ acct_ownerId a = user_id user
                              /\ acct_id a = row_accountId row
                              /\ balance a = row_balance row)
              rows.
Proof.
  unfold post_forecast. intros H.
  destruct (req_user req) as [user|]; [|discriminate].
  destruct (forecastSchema (req_body req)) as [h|issues]; [|discriminate].
  injection H as <- <-.
  exists user, h. split; [reflexivity|]. split; [reflexivity|].
  split; [reflexivity|]. split.
  - unfold findMany. rewrite !map_map. reflexivity.
  - apply Forall_forall. intros row Hrow.
    apply in_map_iff in Hrow. destruct Hrow as [g [<- Hg]].
    unfold findMany in Hg. apply in_map_iff in Hg.
    destruct Hg as [a [<- Ha]]. apply filter_In in Ha.
    destruct Ha as [Hin Ho]. apply String.eqb_eq in Ho.
    split; [reflexivity|]. exists a. now repeat split.
Qed.

Lemma forecast_rows_are_own_witness :
  let mine := mkFinanceAccount "a1" "Blue Ridge Checking" CHECKING "USD"
                               4200.32 "u1" in
  let theirs := mkFinanceAccount "a2" "Vault" SAVINGS "USD" 99000 "u2" in
  let user := mkUser "u1" "marcus@ledgerloop.app" "Marcus Lee" "USER" in
  let db := mkDb [theirs; mine] [] [] in
  exists rows,
    post_forecast db (mkRequest (Some user) NoBody)
    = mkResponse 200 (ForecastBody rows)
    /\ map row_accountId rows = ["a1"%string].
Proof.
  cbv zeta. eexists. split; [reflexivity|].
  destruct (forecast_rows_are_own
              (mkDb [mkFinanceAccount "a2" "Vault" SAVINGS "USD" 99000 "u2";
                     mkFinanceAccount "a1" "Blue Ridge Checking" CHECKING
                                      "USD" 4200.32 "u1"] [] [])
              (mkRequest
                 (Some (mkUser "u1" "marcus@ledgerloop.app" "Marcus Lee"
                               "USER"))
                 NoBody)
              200 _ eq_refl)
    as (user & h & Hu & _ & _ & Hids & _).
  injection Hu as <-. exact Hids.
Defined.

(** ** The bearer token *)

Lemma append_empty_r (s : string) : (s ++ "")%string = s.
Proof. induction s as [|c s IH]; simpl; [reflexivity|now rewrite IH]. Qed.

Lemma split_nonempty (sep : ascii) (s : string) : split sep s <> [].
Proof.
  destruct s as [|c s]; simpl; [discriminate|].
  destruct (Ascii.eqb c sep); [discriminate|].
  destruct (split sep s); discriminate.
Qed.

Lemma split_sep_free (sep : ascii) (s : string) :
  (forall c, In c (list_ascii_of_string s) -> c <> sep) ->
  split sep s = [s].
Proof.
  induction s as [|c s IH]; intros H; simpl; [reflexivity|].
  assert (Hc : Ascii.eqb c sep = false).
  { apply Ascii.eqb_neq. apply H. now left. }
  rewrite Hc, IH; [reflexivity|].
  intros d Hd. apply H. now right.
Qed.

Lemma split_app_sep (sep : ascii) (a b : string) :
  (forall c, In c (list_ascii_of_string a) -> c <> sep) ->
  split sep (a ++ String sep b)%string = a :: split sep b.
Proof.
  induction a as [|c a IH]; intros H; simpl.
  - now rewrite Ascii.eqb_refl.
  - assert (Hc : Ascii.eqb c sep = false).
    { apply Ascii.eqb_neq. apply H. now left. }
    rewrite Hc, IH; [reflexivity|].
    intros d Hd. apply H. now right.
Qed.

Lemma split_parts_sep_free (sep : ascii) (s x : string) :
  In x (split sep s) ->
  forall c, In c (list_ascii_of_string x) -> c <> sep.
Proof.
  revert x. induction s as [|c s IH]; intros x Hx d Hd; simpl in Hx.
  - destruct Hx as [<-|[]]. destruct Hd.
  - destruct (Ascii.eqb c sep) eqn:Hc.
    + destruct Hx as [<-|Hx]; [destruct Hd|]. now apply (IH x).
    + destruct (split sep s) as [|seg segs] eqn:E.
      * destruct Hx as [<-|[]]. destruct Hd as [<-|[]].
        now apply Ascii.eqb_neq.
      * destruct Hx as [<-|Hx].
        -- destruct Hd as [<-|Hd]; [now apply Ascii.eqb_neq|].
           apply (IH seg); [now left|exact Hd].
        -- apply (IH x); [now right|exact Hd].
Qed.

(** [s.split(sep).join(sep)] is [s]. *)
Lemma concat_split (sep : ascii) (s : string) :
  String.concat (String sep "") (split sep s) = s.
Proof.
  induction s as [|c s IH]; simpl; [reflexivity|].
  destruct (Ascii.eqb c sep) eqn:Hc.
  - apply Ascii.eqb_eq in Hc. subst c.
    pose proof (split_nonempty sep s) as Hne.
    destruct (split sep s) as [|seg segs]; [contradiction|].
    simpl in *. now rewrite IH.
  - pose proof (split_nonempty sep s) as Hne.
    destruct (split sep s) as [|seg segs]; [contradiction|].
    destruct segs as [|seg2 segs]; simpl in *; now rewrite <- IH.
Qed.

Lemma in_toLowerCase (s : string) (c : ascii) :
  In c (list_ascii_of_string s) ->
  In (lower c) (list_ascii_of_string (toLowerCase s)).
Proof.
  induction s as [|d s IH]; simpl; [tauto|].
  intros [->|H]; [now left|right; now apply IH].
Qed.

Lemma bearer_no_space (s : string) :
  toLowerCase s = "bearer"%string -> no_space s.
Proof.
  intros H c Hc ->. apply in_toLowerCase in Hc. rewrite H in Hc.
  simpl in Hc. repeat (destruct Hc as [Hc|Hc]; [discriminate Hc|]).
  exact Hc.
Qed.

(** X10. [parseToken] accepts a header exactly when it reads
    "<scheme> <token>" possibly followed by a space and more text, where
    the scheme is "bearer" in any letter case and the token is the
    non-empty run up to the next space; it then returns that token
    unchanged.  Everything else (no header, no space, another scheme, two
    spaces after the scheme) gives no token. *)
Theorem parseToken_characterised (h t : string) :
  parseToken (Some h) = Some t
  <-> exists scheme rest : string,
        h = (scheme ++ " " ++ t ++ rest)%string
        /\ toLowerCase scheme = "bearer"%string
        /\ t <> ""%string
        /\ no_space t
        /\ (rest = ""%string \/ exists r, rest = String " " r).
Proof.
  split.
  - unfold parseToken. destruct (String.eqb h "") eqn:Hh; [discriminate|].
    pose proof (concat_split " " h) as Hjoin.
    pose proof (split_parts_sep_free " " h) as Hfree.
    destruct (split " " h) as [|s [|t' more]]; simpl; try discriminate.
    destruct (String.eqb (toLowerCase s) "bearer") eqn:Hs; simpl;
      [|discriminate].
    destruct (String.eqb t' "") eqn:Ht; [discriminate|].
    intros [= ->]. apply String.eqb_eq in Hs. apply String.eqb_neq in Ht.
    exists s.
    exists (match more with
            | [] => ""%string
            | _ => (" " ++ String.concat " " more)%string
            end).
    split; [|split; [exact Hs|split; [exact Ht|split]]].
    + rewrite <- Hjoin. simpl. destruct more; simpl.
      * now rewrite append_empty_r.
      * reflexivity.
    + intros c Hc. apply (Hfree t); [right; now left|exact Hc].
    + destruct more; [now left|right]. eexists. reflexivity.
  - intros (scheme & rest & -> & Hs & Ht & Hfree & Hrest).
    unfold parseToken.
    assert (Hne : String.eqb (scheme ++ " " ++ t ++ rest) "" = false).
    { apply String.eqb_neq. destruct scheme; discriminate. }
    rewrite Hne.
    change (scheme ++ " " ++ t ++ rest)%string
      with (scheme ++ String " " (t ++ rest))%string.
    rewrite (split_app_sep " " scheme (t ++ rest) (bearer_no_space _ Hs)).
    assert (Hsplit : exists more, split " " (t ++ rest) = t :: more).
    { destruct Hrest as [->|[r ->]].
      - exists []. rewrite append_empty_r. now apply split_sep_free.
      - eexists. now apply split_app_sep. }
    destruct Hsplit as [more ->]. simpl.
    rewrite Hs. simpl.
    apply String.eqb_neq in Ht. now rewrite Ht.
Qed.

Lemma parseToken_characterised_witness :
  parseToken (Some "bEaReR abc.def.ghi trailing"%string)
  = Some "abc.def.ghi"%string.
Proof.
  apply (proj2 (parseToken_characterised _ _)).
  exists "bEaReR"%string, " trailing"%string.
  split; [reflexivity|]. split; [reflexivity|]. split; [discriminate|].
  split.
  - intros c Hc. simpl in Hc.
    repeat (destruct Hc as [<-|Hc]; [discriminate|]). destruct Hc.
  - right. eexists. reflexivity.
Defined.

(** X11. Without a usable bearer token nothing is written.  A body that
    [express.json()] rejects is answered 500 before authentication is
    even looked at, on every finance route and for every Authorization
    header, and the store is unchanged.  A body that parses (or no body),
    sent with a missing or malformed Authorization header, or with a
    token jwt.verify rejects, or whose subject is not a stored user, is
    answered 401 on every finance route, and the store is unchanged. *)
Theorem unauthenticated_never_writes (datetime : string -> bool)
    (verify : string -> option string) (findUnique : string -> option User)
    (db : Db) (newId : string) (authorization : option string) :
  (forall route : Route,
      finance_app datetime verify findUnique db route newId authorization
                  Unparseable
      = (500%nat, db))
  /\ ((parseToken authorization = None
       \/ (exists t, parseToken authorization = Some t /\ verify t = None)
       \/ (exists t sub, parseToken authorization = Some t
                         /\ verify t = Some sub /\ findUnique sub = None)) ->
      forall (route : Route) (body : Body),
        finance_app datetime verify findUnique db route newId authorization
                    (Parsed body)
        = (401%nat, db)).
Proof.
  split; [reflexivity|].
  intros H route body.
  assert (Hu : attachUser verify findUnique authorization = None).
  { unfold attachUser.
    destruct H as [->|[(t & -> & ->)|(t & sub & -> & -> & ->)]];
      reflexivity. }
  unfold finance_app. rewrite Hu. destruct route; reflexivity.
Qed.

Lemma unauthenticated_never_writes_witness :
  parseToken (Some "Basic dXNlcjpwYXNz"%string) = None
  /\ finance_app (fun _ => true) (fun t => Some t) (fun _ => None)
                 (mkDb [] [] []) AccountsRoute "a1"
                 (Some "Basic dXNlcjpwYXNz"%string) (Parsed NoBody)
     = (401%nat, mkDb [] [] []).
Proof.
  split; [reflexivity|].
  apply (proj2 (unauthenticated_never_writes
                  (fun _ => true) (fun t => Some t) (fun _ => None)
                  (mkDb [] [] []) "a1" (Some "Basic dXNlcjpwYXNz"%string))).
  left. reflexivity.
Defined.

(** ** The client's forms against the server's schemas *)

Lemma Qle_bool_false (x y : Q) : Qle_bool x y = false <-> y < x.
Proof.
  split.
  - intros H. apply Qnot_le_lt. intros Hle.
    apply Qle_bool_iff in Hle. congruence.
  - intros H. destruct (Qle_bool x y) eqn:E; [|reflexivity].
    apply Qle_bool_iff in E. exfalso. exact (Qlt_not_le _ _ H E).
Qed.


(** On ASCII text the JavaScript length is the number of characters; a
    two-byte letter such as e-acute (195, 169) counts once. *)
Lemma js_length_ascii (s : string) :
  (forall c, In c (list_ascii_of_string s) -> (nat_of_ascii c < 128)%nat) ->
  js_length s = String.length s.
Proof.
  induction s as [|c s IH]; intros H; [reflexivity|].
  cbn [js_length String.length].
  rewrite IH by (intros d Hd; apply H; now right).
  assert (Hc : (nat_of_ascii c < 128)%nat) by (apply H; now left).
  assert (Hu : utf16_units c = 1%nat).
  { unfold utf16_units.
    assert (E1 : (128 <=? nat_of_ascii c)%nat = false)
      by (apply Nat.leb_gt; lia).
    assert (E2 : (240 <=? nat_of_ascii c)%nat = false)
      by (apply Nat.leb_gt; lia).
    now rewrite E1, E2. }
  now rewrite Hu.
Qed.

Lemma js_length_two_byte_letters :
  let e_acute := String "195" (String "169" EmptyString) in
  js_length (e_acute ++ e_acute) = 2%nat
  /\ String.length (e_acute ++ e_acute) = 4%nat
  /\ z_string_min 3 (Some (JString (e_acute ++ e_acute))) = None.
Proof. repeat split. Qed.





(** ** Account cards and zero amounts *)

Lemma sign_trichotomy (x : Q) :
  (Qltb 0 x = true /\ Qltb x 0 = false /\ Qeq_bool x 0 = false)
  \/ (Qltb 0 x = false /\ Qltb x 0 = true /\ Qeq_bool x 0 = false)
  \/ (Qltb 0 x = false /\ Qltb x 0 = false /\ Qeq_bool x 0 = true).
Proof.
  destruct (Q_dec x 0) as [[Hlt|Hgt]|Heq].
  - right. left. split; [apply Qltb_ge; lra|].
    split; [now apply Qltb_lt|].
    destruct (Qeq_bool x 0) eqn:E; [|reflexivity].
    apply Qeq_bool_iff in E. lra.
  - left. split; [now apply Qltb_lt|]. split; [apply Qltb_ge; lra|].
    destruct (Qeq_bool x 0) eqn:E; [|reflexivity].
    apply Qeq_bool_iff in E. lra.
  - right. right. split; [apply Qltb_ge; lra|].
    split; [apply Qltb_ge; lra|]. now apply Qeq_bool_iff.
Qed.

Lemma sign_count (l : list Transaction) :
  (List.length (filter (fun t => Qltb 0 (amount t)) l)
   + List.length (filter (fun t => Qltb (amount t) 0) l)
   + List.length (filter (fun t => Qeq_bool (amount t) 0) l)
   = List.length l)%nat.
Proof.
  induction l as [|t l IH]; simpl; [reflexivity|].
  destruct (sign_trichotomy (amount t))
    as [(-> & -> & ->)|[(-> & -> & ->)|(-> & -> & ->)]]; simpl; lia.
Qed.

Lemma filter_length_zero {A : Type} (p : A -> bool) (l : list A) :
  List.length (filter p l) = 0%nat <-> Forall (fun x => p x = false) l.
Proof.
  induction l as [|x l IH]; simpl.
  - split; [constructor|reflexivity].
  - destruct (p x) eqn:E; simpl.
    + split; [discriminate|]. intros H. inversion H; congruence.
    + rewrite IH. split; [now constructor|]. intros H. now inversion H.
Qed.

(** X14. The transaction form never sends a zero amount, and the
    "n in / m out" counts of an account card add up to the number of
    transactions exactly when no transaction has amount 0 (they fall
    short by the number of zero amounts otherwise). *)
Theorem card_counts_and_zero_amounts (Number : string -> option Q)
    (trim : string -> string) (a : AccountGraph) :
  (forall form path body,
      LedgerLoop.handleTransactionSubmit Number trim form
      = LedgerLoop.Send path body ->
      exists amt, lookup "amount" body = Some (JNumber amt) /\ ~ amt == 0)
  /\ (LedgerLoop.inflows a + LedgerLoop.outflows a
      + List.length (filter (fun t => Qeq_bool (amount t) 0) (transactions a))
      = List.length (transactions a))%nat
  /\ ((LedgerLoop.inflows a + LedgerLoop.outflows a
       = List.length (transactions a))%nat
      <-> Forall (fun t => ~ amount t == 0) (transactions a)).
Proof.
  split; [|split].
  - intros form path body. unfold LedgerLoop.handleTransactionSubmit.
    destruct (LedgerLoop.tf_accountId form) as [i|]; [|discriminate].
    destruct (String.eqb i ""); [discriminate|].
    destruct (String.eqb (trim (LedgerLoop.tf_description form)) "");
      [discriminate|].
    destruct (Number (LedgerLoop.tf_amount form)) as [amt|]; [|discriminate].
    destruct (Qeq_bool amt 0) eqn:E; [discriminate|].
    intros [= <- <-]. exists amt. split; [reflexivity|].
    now apply Qeq_bool_neq.
  - apply sign_count.
  - unfold LedgerLoop.inflows, LedgerLoop.outflows.
    pose proof (sign_count (transactions a)) as H.
    pose proof (filter_length_zero (fun t => Qeq_bool (amount t) 0)
                                   (transactions a)) as Hz.
    split.
    + intros E. assert (H0 : List.length
                               (filter (fun t => Qeq_bool (amount t) 0)
                                       (transactions a)) = 0%nat) by lia.
      apply Hz in H0. eapply Forall_impl; [|exact H0].
      intros t Ht. now apply Qeq_bool_neq.
    + intros F.
      assert (H0 : List.length
                     (filter (fun t => Qeq_bool (amount t) 0)
                             (transactions a)) = 0%nat).
      { apply Hz. eapply Forall_impl; [|exact F].
        intros t Ht. destruct (Qeq_bool (amount t) 0) eqn:E; [|reflexivity].
        apply Qeq_bool_iff in E. contradiction. }
      lia.
Qed.

Lemma card_counts_and_zero_amounts_witness :
  let form := LedgerLoop.mkTransactionForm (Some "a1"%string)
                "Retainer invoice" "1200" "Income"
                "2025-11-08T00:00:00.000Z" in
  exists amt,
    lookup "amount"
      [("accountId", JString "a1");
       ("description", JString "Retainer invoice");
       ("amount", JNumber 1200);
       ("category", JString "Income");
       ("occurredAt", JString "2025-11-08T00:00:00.000Z")]%string
    = Some (JNumber amt) /\ ~ amt == 0.
Proof.
  cbv zeta.
  apply (proj1 (card_counts_and_zero_amounts
                  (fun _ => Some 1200) (fun s => s)
                  (mkAccountGraph
                     (mkFinanceAccount "a1" "Blue Ridge Checking" CHECKING
                                       "USD" 4200.32 "u1") [] []))
               (LedgerLoop.mkTransactionForm (Some "a1"%string)
                  "Retainer invoice" "1200" "Income"
                  "2025-11-08T00:00:00.000Z")
               "/finance/transactions"%string).
  reflexivity.
Defined.

(** ** The overview figures against the forecast *)

Lemma Qsum_map_ext {A : Type} (f g : A -> Q) (l : list A) :
  (forall x, f x == g x) -> Qsum (map f l) == Qsum (map g l).
Proof.
  intros H. induction l as [|x l IH]; simpl; [reflexivity|].
  now rewrite IH, H.
Qed.

Lemma Qsum_map_plus {A : Type} (f g : A -> Q) (l : list A) :
  Qsum (map (fun x => f x + g x) l) == Qsum (map f l) + Qsum (map g l).
Proof.
  induction l as [|x l IH]; simpl; [ring|]. rewrite IH. ring.
Qed.

Lemma Qsum_map_scale {A : Type} (f : A -> Q) (k : Q) (l : list A) :
  Qsum (map (fun x => f x * k) l) == k * Qsum (map f l).
Proof.
  induction l as [|x l IH]; simpl; [ring|]. rewrite IH. ring.
Qed.

Lemma Qsum_map_opp {A : Type} (f : A -> Q) (l : list A) :
  Qsum (map (fun x => - f x) l) == - Qsum (map f l).
Proof.
  induction l as [|x l IH]; simpl; [ring|]. rewrite IH. ring.
Qed.

Lemma autopilotTotal_autopilot (a : AccountGraph) :
  LedgerLoop.autopilotTotal a == autopilot a.
Proof.
  unfold LedgerLoop.autopilotTotal. rewrite fold_left_sum, autopilot_spec.
  unfold Spec.autopilotAccrual. ring.
Qed.

Lemma totalBalance_sum (accounts : list AccountGraph) :
  LedgerLoop.totalBalance accounts
  == Qsum (map (fun a => balance (account a)) accounts).
Proof. unfold LedgerLoop.totalBalance. rewrite fold_left_sum. ring. Qed.

Lemma autopilotQueued_sum (accounts : list AccountGraph) :
  LedgerLoop.autopilotQueued accounts == Qsum (map autopilot accounts).
Proof.
  unfold LedgerLoop.autopilotQueued. rewrite fold_left_sum.
  rewrite (Qsum_map_ext _ _ accounts autopilotTotal_autopilot). ring.
Qed.

Lemma projected_rows_sum (h : Q) (accounts : list AccountGraph) :
  fold_left (fun (sum : Q) (row : ForecastRow) => sum + row_projected row)
            (map (forecast_row h) accounts) 0
  == LedgerLoop.totalBalance accounts
     + h * Qsum (map netPerTransaction accounts)
     - LedgerLoop.autopilotQueued accounts.
Proof.
  rewrite fold_left_sum, map_map. cbn [row_projected forecast_row].
  rewrite totalBalance_sum, autopilotQueued_sum.
  rewrite (Qsum_map_ext (projected h)
             (fun a => (balance (account a) + netPerTransaction a * h)
                       + - autopilot a) accounts).
  - rewrite Qsum_map_plus, Qsum_map_plus, Qsum_map_scale, Qsum_map_opp. ring.
  - intros a. rewrite projected_net. ring.
Qed.

(** X15. The client's figures agree with the server's forecast: the
    autopilot total of an account card is the autopilot of that account's
    forecast row, "Autopilot queued" is the sum of the rows' autopilot,
    and for a forecast of the same accounts at horizon h, projected total
    minus total balance is h * (sum of the accounts' netPerTransaction)
    minus the autopilot queued.  So the "Projected balance" badge points
    down exactly when h * (sum of netPerTransaction) is below the
    autopilot queued. *)
Theorem client_totals_match_forecast (accounts : list AccountGraph) (h : Q) :
  let rows := map (forecast_row h) accounts in
  (forall a : AccountGraph,
      LedgerLoop.autopilotTotal a == row_autopilot (forecast_row h a))
  /\ LedgerLoop.autopilotQueued accounts == Qsum (map row_autopilot rows)
  /\ exists total : Q,
       LedgerLoop.projectedTotal (Some rows) = Some total
       /\ total - LedgerLoop.totalBalance accounts
          == h * Qsum (map netPerTransaction accounts)
             - LedgerLoop.autopilotQueued accounts
       /\ (LedgerLoop.projectedTrend (Some rows)
                                     (LedgerLoop.totalBalance accounts)
           = LedgerLoop.down
           <-> h * Qsum (map netPerTransaction accounts)
               < LedgerLoop.autopilotQueued accounts).
Proof.
  cbv zeta. split; [|split].
  - intros a. apply autopilotTotal_autopilot.
  - rewrite map_map. cbn [row_autopilot forecast_row].
    apply autopilotQueued_sum.
  - eexists. split; [reflexivity|].
    pose proof (projected_rows_sum h accounts) as E.
    split; [rewrite E; ring|].
    unfold LedgerLoop.projectedTrend, LedgerLoop.projectedTotal.
    destruct (Qltb _ (LedgerLoop.totalBalance accounts)) eqn:T.
    + apply Qltb_lt in T. rewrite E in T. split; [intros _; lra|reflexivity].
    + apply Qltb_ge in T. rewrite E in T. split; [discriminate|]. lra.
Qed.

(** X16. In exact arithmetic (no rounding and no overflow of the
    quotient), the runway is finite exactly when the monthly net is
    negative (the inner zero-burn test can never fire); a finite runway r
    satisfies r * (- monthlyNet) = 30 * totalBalance, and it is negative
    exactly when the total balance is. *)
Theorem runway_characterised (monthlyNet totalBalance : Q) :
  (LedgerLoop.runwayDays monthlyNet totalBalance = None <-> 0 <= monthlyNet)
  /\ (forall r : Q,
        LedgerLoop.runwayDays monthlyNet totalBalance = Some r ->
        monthlyNet < 0
        /\ r * (- monthlyNet) == 30 * totalBalance
        /\ (r < 0 <-> totalBalance < 0)).
Proof.
  unfold LedgerLoop.runwayDays.
  destruct (Qltb monthlyNet 0) eqn:Hm.
  - apply Qltb_lt in Hm.
    assert (Habs : Qabs monthlyNet == - monthlyNet).
    { apply Qabs_neg. lra. }
    assert (Hnz : Qeq_bool (Qabs monthlyNet) 0 = false).
    { destruct (Qeq_bool (Qabs monthlyNet) 0) eqn:E; [|reflexivity].
      apply Qeq_bool_iff in E. lra. }
    rewrite Hnz. split.
    + split; [discriminate|]. intros H. lra.
    + intros r [= <-]. split; [exact Hm|].
      assert (Hr : totalBalance / Qabs monthlyNet * 30 * (- monthlyNet)
                   == 30 * totalBalance).
      { rewrite Habs. field. lra. }
      split; [exact Hr|].
      set (r := totalBalance / Qabs monthlyNet * 30) in *.
      assert (Hpos : 0 < - monthlyNet) by lra.
      split; intros H.
      * assert (r * (- monthlyNet) < 0).
        { setoid_replace (r * - monthlyNet) with (- ((- r) * (- monthlyNet)))
            by ring.
          assert (0 < (- r) * (- monthlyNet))
            by (apply Qmult_lt_0_compat; lra).
          lra. }
        lra.
      * destruct (Qlt_le_dec r 0) as [Hlt|Hge]; [exact Hlt|].
        assert (0 <= r * (- monthlyNet))
          by (apply Qmult_le_0_compat; lra).
        lra.
  - apply Qltb_ge in Hm. split.
    + split; [intros _; exact Hm|reflexivity].
    + intros r H. discriminate.
Qed.

Lemma runway_characterised_witness :
  LedgerLoop.runwayDays (-600) 4200 = Some (4200 / Qabs (-600) * 30)
  /\ (-600) < 0.
Proof.
  split; [reflexivity|].
  apply (proj2 (runway_characterised (-600) 4200) _ eq_refl).
Defined.

(** X17. The sparkline: whatever the forecast data, its second label
    never has a missing horizon; with no forecast, or with one whose
    projected total is exactly 0 (a forecast over no account included),
    the chart shows the placeholder "+30d" point at 92% of the total
    balance; otherwise the second point is the rounded projected total
    under the horizon of the first row. *)
Theorem forecastSpark_cases (forecastData : option (list ForecastRow))
    (totalBalance : Q) :
  let fallback :=
    [LedgerLoop.mkSparkPoint LedgerLoop.Today
                             (LedgerLoop.toFixed2 totalBalance);
     LedgerLoop.mkSparkPoint (LedgerLoop.PlusDays (Some 30))
                             (LedgerLoop.toFixed2 (totalBalance * 0.92))] in
  (forall pt, In pt (LedgerLoop.forecastSpark forecastData totalBalance) ->
              LedgerLoop.label pt <> LedgerLoop.PlusDays None)
  /\ (forecastData = None ->
      LedgerLoop.forecastSpark forecastData totalBalance = fallback)
  /\ (forecastData = Some [] ->
      LedgerLoop.forecastSpark forecastData totalBalance = fallback)
  /\ (forall total,
        LedgerLoop.projectedTotal forecastData = Some total ->
        (total == 0 ->
         LedgerLoop.forecastSpark forecastData totalBalance = fallback)
        /\ (~ total == 0 ->
            exists row rest,
              forecastData = Some (row :: rest)
              /\ LedgerLoop.forecastSpark forecastData totalBalance
                 = [LedgerLoop.mkSparkPoint LedgerLoop.Today
                      (LedgerLoop.toFixed2 totalBalance);
                    LedgerLoop.mkSparkPoint
                      (LedgerLoop.PlusDays (Some (row_horizonDays row)))
                      (LedgerLoop.toFixed2 total)])).
Proof.
  cbv zeta. unfold LedgerLoop.forecastSpark.
  split; [|split; [|split]].
  - intros pt. destruct forecastData as [rows|]; simpl.
    + destruct (Qeq_bool _ 0) eqn:E.
      * intros [<-|[<-|[]]]; discriminate.
      * destruct rows as [|row rest]; [discriminate E|].
        intros [<-|[<-|[]]]; discriminate.
    + intros [<-|[<-|[]]]; discriminate.
  - intros ->. reflexivity.
  - intros ->. reflexivity.
  - intros total Ht. destruct forecastData as [rows|]; [|discriminate].
    rewrite Ht. split.
    + intros Hz. apply Qeq_bool_iff in Hz. now rewrite Hz.
    + intros Hnz.
      assert (E : Qeq_bool total 0 = false).
      { destruct (Qeq_bool total 0) eqn:E; [|reflexivity].
        apply Qeq_bool_iff in E. contradiction. }
      rewrite E. destruct rows as [|row rest].
      * simpl in Ht. injection Ht as <-. exfalso. now apply Hnz.
      * exists row, rest. split; reflexivity.
Qed.

Lemma forecastSpark_cases_witness :
  let row := mkForecastRow "a1" 100 0 30 100 in
  LedgerLoop.projectedTotal (Some [row]) = Some (0 + 0)
  /\ LedgerLoop.forecastSpark (Some [row]) 100
     = [LedgerLoop.mkSparkPoint LedgerLoop.Today (LedgerLoop.toFixed2 100);
        LedgerLoop.mkSparkPoint (LedgerLoop.PlusDays (Some 30))
                                (LedgerLoop.toFixed2 (100 * 0.92))].
Proof.
  cbv zeta. split; [reflexivity|].
  destruct (forecastSpark_cases (Some [mkForecastRow "a1" 100 0 30 100]) 100)
    as (_ & _ & _ & H).
  destruct (H (0 + 0) eq_refl) as [Hz _].
  apply Hz. reflexivity.
Defined.

(** ** The request state of [useApi] *)

Lemma fold_left_invariant {S A : Type} (step : S -> A -> S) (P : S -> Prop)
    (l : list A) (s : S) :
  P s -> (forall s a, P s -> P (step s a)) -> P (fold_left step l s).
Proof.
  intros Hs Hstep. revert s Hs.
  induction l as [|a l IH]; intros s Hs; simpl; [exact Hs|].
  apply IH. now apply Hstep.
Qed.

(** X18. Whatever actions are dispatched, the request state stays
    coherent: an error is recorded exactly in status "error"; data and
    its timestamp are present or absent together; status "success" has
    data and no error; and status "idle" is the untouched initial
    state. *)
Theorem useApi_state_coherent (T : Type) (actions : list (UseApi.Action T)) :
  let s := UseApi.dispatched actions in
  (UseApi.status s = UseApi.error <-> UseApi.err s <> None)
  /\ (UseApi.data s = None <-> UseApi.timestamp s = None)
  /\ (UseApi.status s = UseApi.success -> UseApi.data s <> None)
  /\ (UseApi.status s = UseApi.idle -> s = UseApi.initialState).
Proof.
  cbv zeta. unfold UseApi.dispatched.
  apply (fold_left_invariant UseApi.reducer
           (fun s => (UseApi.status s = UseApi.error <-> UseApi.err s <> None)
                     /\ (UseApi.data s = None <-> UseApi.timestamp s = None)
                     /\ (UseApi.status s = UseApi.success ->
                         UseApi.data s <> None)
                     /\ (UseApi.status s = UseApi.idle ->
                         s = UseApi.initialState))).
  - simpl. repeat split; try discriminate; try reflexivity.
    intros H. now destruct H.
  - intros s a (He & Hd & Hs & Hi).
    destruct a as [|payload now|e|]; simpl.
    + split; [split; [discriminate|intros H; now destruct H]|].
      split; [exact Hd|]. split; discriminate.
    + split; [split; [discriminate|intros H; now destruct H]|].
      split; [split; discriminate|]. split; discriminate.
    + split; [split; [discriminate|reflexivity]|].
      split; [exact Hd|]. split; discriminate.
    + repeat split; try discriminate; try reflexivity.
      intros H. now destruct H.
Qed.

(** X19. Loaded data survives refetches that do not succeed: from any
    state, a run of "loading" and "error" actions leaves the data and its
    timestamp as they were. *)
Theorem useApi_keeps_stale_data (T : Type) (s : UseApi.ApiState T)
    (actions : list (UseApi.Action T)) :
  Forall (fun a => a = UseApi.Loading \/ exists e, a = UseApi.Error e)
         actions ->
  UseApi.data (fold_left UseApi.reducer actions s) = UseApi.data s
  /\ UseApi.timestamp (fold_left UseApi.reducer actions s)
     = UseApi.timestamp s.
Proof.
  intros H. revert s.
  induction H as [|a actions Ha _ IH]; intros s; simpl; [now split|].
  destruct (IH (UseApi.reducer s a)) as [-> ->].
  destruct Ha as [->|[e ->]]; now split.
Qed.

Lemma useApi_keeps_stale_data_witness :
  UseApi.data
    (fold_left UseApi.reducer
               [UseApi.Loading; UseApi.Error "Request failed"%string]
               (UseApi.reducer UseApi.initialState (UseApi.Success 7%nat 1000)))
  = Some 7%nat.
Proof.
  apply (useApi_keeps_stale_data nat
           (UseApi.reducer UseApi.initialState (UseApi.Success 7%nat 1000))
           [UseApi.Loading; UseApi.Error "Request failed"%string]).
  constructor; [now left|]. constructor; [right; now eexists|constructor].
Defined.

(** ** The guardrail simulation *)

Lemma heuristicScore_eq (prompt : string) :
  Nova.heuristicScore prompt
  == Qmin 1 (inject_Z (Z.of_nat (js_length prompt)) / 280).
Proof.
  unfold Nova.heuristicScore.
  assert (H : 0 <= inject_Z (Z.of_nat (js_length prompt)) / 280).
  { apply Qle_shift_div_l; [reflexivity|]. rewrite Qmult_0_l.
    replace 0 with (inject_Z 0) by reflexivity. rewrite <- Zle_Qle. lia. }
  now rewrite (Q.max_r _ _ H).
Qed.

Lemma score_above_threshold (prompt : string) :
  0.65 < Nova.heuristicScore prompt <-> (182 < js_length prompt)%nat.
Proof.
  rewrite heuristicScore_eq.
  set (n := js_length prompt).
  assert (Hdiv : forall k : Q,
             k < inject_Z (Z.of_nat n) / 280 <-> k * 280 < inject_Z (Z.of_nat n)).
  { intros k. split; intros H.
    - apply (Qmult_lt_compat_r _ _ 280) in H; [|reflexivity].
      setoid_replace (inject_Z (Z.of_nat n) / 280 * 280)
        with (inject_Z (Z.of_nat n)) in H by field.
      exact H.
    - apply Qlt_shift_div_l; [reflexivity|exact H]. }
  split.
  - intros H.
    assert (H1 : 0.65 < inject_Z (Z.of_nat n) / 280).
    { eapply Qlt_le_trans; [exact H|apply Q.le_min_r]. }
    apply Hdiv in H1.
    assert (H2 : inject_Z 182 < inject_Z (Z.of_nat n)).
    { eapply Qle_lt_trans; [|exact H1]. vm_compute. discriminate. }
    rewrite <- Zlt_Qlt in H2. lia.
  - intros H. apply Q.min_glb_lt; [reflexivity|].
    apply Hdiv.
    assert (H2 : inject_Z 182 < inject_Z (Z.of_nat n)).
    { rewrite <- Zlt_Qlt. lia. }
    eapply Qle_lt_trans; [|exact H2]. vm_compute. discriminate.
Qed.

(** X20. The guardrail simulation says "Needs review" exactly for
    prompts whose JavaScript length (UTF-16 code units; the number of
    characters for ASCII prompts) exceeds 182, and attaches its two
    notes exactly then; the confidence is 1 - min(1, length / 280),
    always between 0 and 1, and guardrails left out are reported as the
    empty list. *)
Theorem simulate_verdict (prompt : string) (guardrails : option (list string)) :
  let r := Nova.simulate prompt guardrails in
  (Nova.verdict r = Nova.NeedsReview <-> (182 < js_length prompt)%nat)
  /\ (Nova.notes r <> [] <-> Nova.verdict r = Nova.NeedsReview)
  /\ 0 <= Nova.confidence r
  /\ Nova.confidence r <= 1
  /\ Nova.confidence r
     == 1 - Qmin 1 (inject_Z (Z.of_nat (js_length prompt)) / 280)
  /\ (guardrails = None -> Nova.sim_guardrails r = [])
  /\ ((forall c, In c (list_ascii_of_string prompt) ->
                 (nat_of_ascii c < 128)%nat) ->
      js_length prompt = String.length prompt).
Proof.
  cbv zeta. unfold Nova.simulate. simpl.
  pose proof (score_above_threshold prompt) as Ht.
  pose proof (heuristicScore_eq prompt) as He.
  assert (Hlo : 0 <= Nova.heuristicScore prompt).
  { unfold Nova.heuristicScore. apply Q.min_glb; [discriminate|].
    apply Q.le_max_l. }
  assert (Hhi : Nova.heuristicScore prompt <= 1).
  { unfold Nova.heuristicScore. apply Q.le_min_l. }
  split; [|split; [|split; [|split; [|split; [|split]]]]].
  - destruct (Qltb 0.65 (Nova.heuristicScore prompt)) eqn:E.
    + apply Qltb_lt in E. apply Ht in E. tauto.
    + apply Qltb_ge in E. split; [discriminate|]. intros H.
      apply Ht in H. lra.
  - destruct (Qltb 0.65 (Nova.heuristicScore prompt)).
    + split; [reflexivity|discriminate].
    + split; [intros H; now destruct H|discriminate].
  - lra.
  - lra.
  - rewrite He. reflexivity.
  - intros ->. reflexivity.
  - apply js_length_ascii.
Qed.

(** ** The monthly net of the overview *)

Lemma insert_by_time_perm (time : Transaction -> Q) (t : Transaction)
    (l : list Transaction) :
  Permutation (LedgerLoop.insert_by_time time t l) (t :: l).
Proof.
  induction l as [|x l IH]; simpl; [reflexivity|].
  destruct (Qle_bool (time x) (time t)); [|reflexivity].
  rewrite IH. apply perm_swap.
Qed.

Lemma sort_by_time_perm_acc (time : Transaction -> Q)
    (l acc : list Transaction) :
  Permutation
    (fold_left (fun sorted t => LedgerLoop.insert_by_time time t sorted) l acc)
    (l ++ acc).
Proof.
  revert acc. induction l as [|t l IH]; intros acc; simpl; [reflexivity|].
  rewrite IH, insert_by_time_perm. symmetry. apply Permutation_middle.
Qed.

Lemma sort_by_time_perm (time : Transaction -> Q) (l : list Transaction) :
  Permutation (LedgerLoop.sort_by_time time l) l.
Proof.
  unfold LedgerLoop.sort_by_time. rewrite sort_by_time_perm_acc.
  now rewrite app_nil_r.
Qed.

Lemma insert_by_time_sorted (time : Transaction -> Q) (t : Transaction)
    (l : list Transaction) :
  StronglySorted (fun x y => time x <= time y) l ->
  StronglySorted (fun x y => time x <= time y)
                 (LedgerLoop.insert_by_time time t l).
Proof.
  intros H. induction H as [|x l Hl IH Hx]; simpl.
  - constructor; constructor.
  - destruct (Qle_bool (time x) (time t)) eqn:E.
    + apply Qle_bool_iff in E. constructor; [exact IH|].
      apply (Permutation_Forall
               (Permutation_sym (insert_by_time_perm time t l))).
      constructor; assumption.
    + apply Qle_bool_false in E. constructor.
      * constructor; assumption.
      * constructor; [now apply Qlt_le_weak|].
        eapply Forall_impl; [|exact Hx]. intros y Hy. simpl in *.
        apply Qle_trans with (time x); [now apply Qlt_le_weak|exact Hy].
Qed.

Lemma sort_by_time_sorted (time : Transaction -> Q) (l : list Transaction) :
  StronglySorted (fun x y => time x <= time y) (LedgerLoop.sort_by_time time l).
Proof.
  unfold LedgerLoop.sort_by_time.
  apply (fold_left_invariant
           (fun sorted t => LedgerLoop.insert_by_time time t sorted)
           (StronglySorted (fun x y => time x <= time y))).
  - constructor.
  - intros s t Hs. now apply insert_by_time_sorted.
Qed.

Lemma last_in {A : Type} (x : A) (l : list A) (d : A) :
  In (List.last (x :: l) d) (x :: l).
Proof.
  revert x. induction l as [|y l IH]; intros x; [now left|].
  right. apply (IH y).
Qed.

Lemma sorted_last_max (time : Transaction -> Q) (l : list Transaction)
    (d : Transaction) :
  StronglySorted (fun x y => time x <= time y) l ->
  forall x, In x l -> time x <= time (List.last l d).
Proof.
  intros H. induction H as [|a l Hl IH Ha]; intros x Hx; [destruct Hx|].
  destruct l as [|b l].
  - destruct Hx as [<-|[]]. apply Qle_refl.
  - change (List.last (a :: b :: l) d) with (List.last (b :: l) d).
    destruct Hx as [<-|Hx]; [|now apply IH].
    rewrite Forall_forall in Ha. apply Ha. apply last_in.
Qed.

Lemma Qsum_perm (l1 l2 : list Q) :
  Permutation l1 l2 -> Qsum l1 == Qsum l2.
Proof.
  intros H. induction H; simpl.
  - reflexivity.
  - now rewrite IHPermutation.
  - ring.
  - now rewrite IHPermutation1.
Qed.

(** The ends of the sorted history, and what the callback makes of
    them. *)
Lemma monthlyNet_step_value (getTime : string -> Q) (sum : Q)
    (a : AccountGraph) :
  transactions a <> [] ->
  exists t_first t_last : Transaction,
    In t_first (transactions a) /\ In t_last (transactions a)
    /\ (forall t, In t (transactions a) ->
                  getTime (occurredAt t_first) <= getTime (occurredAt t)
                  /\ getTime (occurredAt t) <= getTime (occurredAt t_last))
    /\ LedgerLoop.monthlyNet_step getTime sum a
       == sum
          + Qsum (map amount (transactions a))
            / Qmax 1 ((getTime (occurredAt t_last)
                       - getTime (occurredAt t_first))
                      / (1000 * 60 * 60 * 24))
            * 30.
Proof.
  intros Hne. unfold LedgerLoop.monthlyNet_step.
  destruct (transactions a) as [|t1 txs] eqn:Htx; [contradiction|].
  set (time := fun t => getTime (occurredAt t)).
  pose proof (sort_by_time_perm time (t1 :: txs)) as Hperm.
  pose proof (sort_by_time_sorted time (t1 :: txs)) as Hsorted.
  destruct (LedgerLoop.sort_by_time time (t1 :: txs)) as [|t0 rest] eqn:Hs.
  - apply Permutation_nil in Hperm. discriminate.
  - exists t0, (List.last (t0 :: rest) t0).
    split; [apply (Permutation_in _ Hperm); now left|].
    split; [apply (Permutation_in _ Hperm); apply last_in|].
    split.
    + intros t Ht.
      apply (Permutation_in _ (Permutation_sym Hperm)) in Ht.
      split.
      * inversion Hsorted as [|? ? _ Hall]; subst.
        destruct Ht as [<-|Ht]; [apply Qle_refl|].
        rewrite Forall_forall in Hall. now apply Hall.
      * now apply (sorted_last_max time (t0 :: rest) t0 Hsorted).
    + rewrite fold_left_sum. 
      setoid_replace (0 + Qsum (map amount (t1 :: txs)))
        with (Qsum (map amount (t1 :: txs))) by ring.
      reflexivity.
Qed.

(** X21. An account's share of the monthly net: an account without
    transactions adds nothing; otherwise it adds
    30 * (sum of its amounts) / max(1, span in days), where the span runs
    from its earliest to its latest transaction.  In particular, when all
    its transactions lie within one day it adds 30 times their sum. *)
Theorem monthlyNet_account (getTime : string -> Q) (sum : Q)
    (a : AccountGraph) :
  (transactions a = [] -> LedgerLoop.monthlyNet_step getTime sum a = sum)
  /\ (transactions a <> [] ->
      exists t_first t_last : Transaction,
        In t_first (transactions a) /\ In t_last (transactions a)
        /\ (forall t, In t (transactions a) ->
                      getTime (occurredAt t_first) <= getTime (occurredAt t)
                      /\ getTime (occurredAt t) <= getTime (occurredAt t_last))
        /\ LedgerLoop.monthlyNet_step getTime sum a
           == sum
              + Qsum (map amount (transactions a))
                / Qmax 1 ((getTime (occurredAt t_last)
                           - getTime (occurredAt t_first))
                          / (1000 * 60 * 60 * 24))
                * 30)
  /\ (transactions a <> [] ->
      (forall t t', In t (transactions a) -> In t' (transactions a) ->
                    getTime (occurredAt t') - getTime (occurredAt t)
                    <= 1000 * 60 * 60 * 24) ->
      LedgerLoop.monthlyNet_step getTime sum a
      == sum + Qsum (map amount (transactions a)) * 30).
Proof.
  split; [|split].
  - intros H. unfold LedgerLoop.monthlyNet_step. now rewrite H.
  - apply monthlyNet_step_value.
  - intros Hne Hday.
    destruct (monthlyNet_step_value getTime sum a Hne)
      as (tf & tl & Hf & Hl & _ & ->).
    specialize (Hday tf tl Hf Hl).
    assert (Hspan : (getTime (occurredAt tl) - getTime (occurredAt tf))
                    / (1000 * 60 * 60 * 24) <= 1).
    { apply Qle_shift_div_r; [reflexivity|]. now rewrite Qmult_1_l. }
    rewrite (Q.max_l _ _ Hspan). field.
Qed.

Lemma monthlyNet_account_witness :
  let acct := mkFinanceAccount "a1" "Blue Ridge Checking" CHECKING "USD"
                               4200.32 "u1" in
  let t1 := mkTransaction "t1" "Freelance Retainer" 2400 "Income"
                          "2025-11-07T00:00:00.000Z" "a1" in
  let t2 := mkTransaction "t2" "Studio Rent" (-950) "Housing"
                          "2025-11-08T00:00:00.000Z" "a1" in
  let getTime := fun s : string =>
                   if String.eqb s "2025-11-07T00:00:00.000Z"
                   then 1762473600000 else 1762560000000 in
  LedgerLoop.monthlyNet_step getTime 0 (mkAccountGraph acct [t1; t2] [])
  == 0 + Qsum [2400; -950] * 30.
Proof.
  cbv zeta.
  apply (proj2 (proj2 (monthlyNet_account
                         (fun s : string =>
                            if String.eqb s "2025-11-07T00:00:00.000Z"
                            then 1762473600000 else 1762560000000)
                         0
                         (mkAccountGraph
                            (mkFinanceAccount "a1" "Blue Ridge Checking"
                                              CHECKING "USD" 4200.32 "u1")
                            [mkTransaction "t1" "Freelance Retainer" 2400
                                           "Income"
                                           "2025-11-07T00:00:00.000Z" "a1";
                             mkTransaction "t2" "Studio Rent" (-950)
                                           "Housing"
                                           "2025-11-08T00:00:00.000Z" "a1"]
                            [])))).
  - discriminate.
  - intros t t' [<-|[<-|[]]] [<-|[<-|[]]]; vm_compute; discriminate.
Defined.

(** X22. The monthly net does not depend on the order in which an
    account's transactions arrive: reordering them leaves the account's
    share, and so the whole figure, unchanged. *)
Theorem monthlyNet_order_independent (getTime : string -> Q) (sum : Q)
    (acct : FinanceAccount) (txs txs' : list Transaction)
    (rules : list AutopilotRule) :
  Permutation txs txs' ->
  LedgerLoop.monthlyNet_step getTime sum (mkAccountGraph acct txs rules)
  == LedgerLoop.monthlyNet_step getTime sum (mkAccountGraph acct txs' rules).
Proof.
  intros Hp.
  destruct txs as [|t1 txs1].
  - apply Permutation_nil in Hp. subst txs'. reflexivity.
  - assert (Hne : transactions (mkAccountGraph acct (t1 :: txs1) rules) <> [])
      by discriminate.
    assert (Hne' : transactions (mkAccountGraph acct txs' rules) <> []).
    { simpl. intros ->. apply Permutation_sym, Permutation_nil in Hp.
      discriminate. }
    destruct (monthlyNet_step_value getTime sum _ Hne)
      as (f & l & Hf & Hl & Hb & ->).
    destruct (monthlyNet_step_value getTime sum _ Hne')
      as (f' & l' & Hf' & Hl' & Hb' & ->).
    simpl in *.
    assert (Ef : getTime (occurredAt f) == getTime (occurredAt f')).
    { apply Qle_antisym.
      - apply Hb. apply (Permutation_in _ (Permutation_sym Hp)). exact Hf'.
      - apply Hb'. apply (Permutation_in _ Hp). exact Hf. }
    assert (El : getTime (occurredAt l) == getTime (occurredAt l')).
    { apply Qle_antisym.
      - apply Hb'. apply (Permutation_in _ Hp). exact Hl.
      - apply Hb. apply (Permutation_in _ (Permutation_sym Hp)). exact Hl'. }
    assert (Es : Qsum (map amount (t1 :: txs1)) == Qsum (map amount txs')).
    { apply Qsum_perm. now apply Permutation_map. }
    assert (Em : Qmax 1 ((getTime (occurredAt l) - getTime (occurredAt f))
                         / (1000 * 60 * 60 * 24))
                 == Qmax 1 ((getTime (occurredAt l')
                             - getTime (occurredAt f'))
                            / (1000 * 60 * 60 * 24))).
    { rewrite Ef, El. reflexivity. }
    rewrite Es, Em. reflexivity.
Qed.

Lemma monthlyNet_order_independent_witness :
  let acct := mkFinanceAccount "a1" "Blue Ridge Checking" CHECKING "USD"
                               4200.32 "u1" in
  let t1 := mkTransaction "t1" "Freelance Retainer" 2400 "Income"
                          "2025-11-07T00:00:00.000Z" "a1" in
  let t2 := mkTransaction "t2" "Studio Rent" (-950) "Housing"
                          "2025-11-08T00:00:00.000Z" "a1" in
  let getTime := fun _ : string => 0 in
  LedgerLoop.monthlyNet_step getTime 0 (mkAccountGraph acct [t1; t2] [])
  == LedgerLoop.monthlyNet_step getTime 0 (mkAccountGraph acct [t2; t1] []).
Proof.
  cbv zeta.
  apply (monthlyNet_order_independent (fun _ : string => 0) 0).
  apply perm_swap.
Defined.

(** ** Order, empty histories and bounds of the forecast *)

Lemma filter_perm {A : Type} (p : A -> bool) (l1 l2 : list A) :
  Permutation l1 l2 -> Permutation (filter p l1) (filter p l2).
Proof.
  intros H. induction H as [|x l1 l2 _ IH|x y l|l1 l2 l3 _ IH1 _ IH2]; simpl.
  - reflexivity.
  - destruct (p x); [now constructor|exact IH].
  - destruct (p x), (p y); try reflexivity. apply perm_swap.
  - now rewrite IH1.
Qed.

Lemma accrual_perm (bal : Q) (rules rules' : list AutopilotRule) :
  Permutation rules rules' ->
  Spec.autopilotAccrual bal rules == Spec.autopilotAccrual bal rules'.
Proof.
  intros H. unfold Spec.autopilotAccrual.
  apply Qsum_perm. apply Permutation_map. now apply filter_perm.
Qed.

(** X23. The forecast does not depend on the order in which the store
    hands over an account's transactions and rules: reordering either
    list leaves netPerTransaction, autopilot and projected unchanged. *)
Theorem forecast_order_independent (acct : FinanceAccount)
    (txs txs' : list Transaction) (rules rules' : list AutopilotRule)
    (h : Q) :
  Permutation txs txs' ->
  Permutation rules rules' ->
  let g := mkAccountGraph acct txs rules in
  let g' := mkAccountGraph acct txs' rules' in
  netPerTransaction g == netPerTransaction g'
  /\ row_autopilot (forecast_row h g) == row_autopilot (forecast_row h g')
  /\ row_projected (forecast_row h g) == row_projected (forecast_row h g').
Proof.
  intros Ht Hr. cbv zeta.
  assert (En : netPerTransaction (mkAccountGraph acct txs rules)
               == netPerTransaction (mkAccountGraph acct txs' rules')).
  { rewrite !netPerTransaction_plain_sum. cbn [transactions].
    rewrite (Qsum_perm _ _ (Permutation_map amount Ht)).
    now rewrite (Permutation_length Ht). }
  assert (Ea : autopilot (mkAccountGraph acct txs rules)
               == autopilot (mkAccountGraph acct txs' rules')).
  { rewrite !autopilot_spec. cbn [account autopilotRules].
    now apply accrual_perm. }
  split; [exact En|]. split; [exact Ea|].
  cbn [row_projected forecast_row]. rewrite !projected_net.
  cbn [account]. now rewrite En, Ea.
Qed.

Lemma forecast_order_independent_witness :
  let acct := mkFinanceAccount "a1" "Blue Ridge Checking" CHECKING "USD"
                               4200.32 "u1" in
  let t1 := mkTransaction "t1" "Freelance Retainer" 2400 "Income"
                          "2025-11-07T00:00:00.000Z" "a1" in
  let t2 := mkTransaction "t2" "Studio Rent" (-950) "Housing"
                          "2025-11-08T00:00:00.000Z" "a1" in
  row_projected (forecast_row 30 (mkAccountGraph acct [t1; t2] []))
  == row_projected (forecast_row 30 (mkAccountGraph acct [t2; t1] [])).
Proof.
  cbv zeta.
  apply (forecast_order_independent
           (mkFinanceAccount "a1" "Blue Ridge Checking" CHECKING "USD"
                             4200.32 "u1")
           _ _ [] [] 30 (perm_swap _ _ []) (perm_nil _)).
Defined.

(** X24. In exact arithmetic, when an account's amounts add up to zero,
    and in particular when it has no transactions, the horizon has no
    effect: for every horizon the projection is the balance minus the
    autopilot; with no active rule either it is the balance itself.  (On
    doubles, amounts whose exact sum is zero can leave a rounding residue
    that the horizon then scales.) *)
Theorem forecast_without_net (a : AccountGraph) (h : Q) :
  Qsum (map amount (transactions a)) == 0 ->
  projected h a == balance (account a) - autopilot a
  /\ (Forall (fun r => active r = false) (autopilotRules a) ->
      projected h a == balance (account a)).
Proof.
  intros Hz.
  assert (Hn : netPerTransaction a == 0).
  { rewrite netPerTransaction_plain_sum, Hz. unfold Qdiv. ring. }
  assert (E : projected h a == balance (account a) - autopilot a).
  { rewrite projected_net, Hn. ring. }
  split; [exact E|].
  intros Hr. rewrite E, autopilot_spec. unfold Spec.autopilotAccrual.
  rewrite (filter_active_none _ Hr). simpl. ring.
Qed.

Lemma forecast_without_net_witness :
  let acct := mkFinanceAccount "a1" "Blue Ridge Checking" CHECKING "USD"
                               4200.32 "u1" in
  projected 180 (mkAccountGraph acct [] []) == 4200.32 - 0.
Proof.
  cbv zeta.
  apply (proj1 (forecast_without_net
                  (mkAccountGraph
                     (mkFinanceAccount "a1" "Blue Ridge Checking" CHECKING
                                       "USD" 4200.32 "u1") [] [])
                  180 (Qeq_refl 0))).
Defined.

Lemma accrual_upper (bal : Q) (rules : list AutopilotRule) :
  0 <= bal ->
  Forall (fun r => percentage r <= 1) rules ->
  Spec.autopilotAccrual bal rules
  <= bal * inject_Z (Z.of_nat (List.length (filter active rules))).
Proof.
  intros Hb Hr. unfold Spec.autopilotAccrual.
  induction Hr as [|r rules Hp _ IH]; simpl.
  - rewrite Qmult_0_r. apply Qle_refl.
  - destruct (active r); [|exact IH].
    cbn [map Qsum List.length].
    rewrite Nat2Z.inj_succ, <- Z.add_1_r, inject_Z_plus.
    assert (bal * percentage r <= bal * 1).
    { rewrite !(Qmult_comm bal). now apply Qmult_le_compat_r. }
    setoid_replace
      (bal * (inject_Z (Z.of_nat (List.length (filter active rules)))
              + inject_Z 1))
      with (bal * 1
            + bal * inject_Z (Z.of_nat (List.length (filter active rules))))
      by ring.
    now apply Qplus_le_compat.
Qed.

(** X25. In exact arithmetic, on an account whose balance is not
    negative, with percentages that pass the rule validator, the
    autopilot lies between 0 and balance * (number of active rules);
    nothing keeps it below the balance itself, so the projection of an
    account without transactions can be as low as
    balance * (1 - number of active rules). *)
Theorem autopilot_bounds (a : AccountGraph) (h : Q) :
  0 <= balance (account a) ->
  Forall (fun r => z_percentage (Some (JNumber (percentage r)))
                   = Some (percentage r)) (autopilotRules a) ->
  let n := inject_Z (Z.of_nat (List.length (filter active (autopilotRules a)))) in
  0 <= autopilot a
  /\ autopilot a <= balance (account a) * n
  /\ (transactions a = [] ->
      balance (account a) * (1 - n) <= projected h a
      /\ projected h a <= balance (account a)).
Proof.
  intros Hb Hr. cbv zeta.
  assert (Hv : Forall (fun r => Spec.valid_percentage (percentage r))
                      (autopilotRules a)).
  { eapply Forall_impl; [|exact Hr]. intros r H.
    now apply z_percentage_accepts. }
  assert (Hlo : 0 <= autopilot a).
  { rewrite autopilot_spec. apply accrual_nonneg; [exact Hb|].
    eapply Forall_impl; [|exact Hv]. intros r H. apply H. }
  assert (Hhi : autopilot a
                <= balance (account a)
                   * inject_Z (Z.of_nat (List.length
                                           (filter active (autopilotRules a))))).
  { rewrite autopilot_spec. apply accrual_upper; [exact Hb|].
    eapply Forall_impl; [|exact Hv]. intros r H. apply H. }
  split; [exact Hlo|]. split; [exact Hhi|].
  intros Htx.
  assert (E : projected h a == balance (account a) - autopilot a).
  { rewrite projected_net, netPerTransaction_plain_sum, Htx.
    simpl. unfold Qdiv. ring. }
  rewrite E. split; lra.
Qed.

Lemma autopilot_bounds_witness :
  let acct := mkFinanceAccount "a1" "Blue Ridge Checking" CHECKING "USD"
                               100 "u1" in
  let r1 := mkAutopilotRule "r1" "Tax Reserve" 1 "Tax Savings" true
                            "u1" (Some "a1"%string) in
  let r2 := mkAutopilotRule "r2" "Rainy day" 1 "Reserve" true
                            "u1" (Some "a1"%string) in
  0 <= balance acct
  /\ autopilot (mkAccountGraph acct [] [r1; r2]) == 200
  /\ autopilot (mkAccountGraph acct [] [r1; r2]) <= 100 * inject_Z 2.
Proof.
  cbv zeta. split; [discriminate|]. split; [reflexivity|].
  destruct (autopilot_bounds
              (mkAccountGraph
                 (mkFinanceAccount "a1" "Blue Ridge Checking" CHECKING "USD"
                                   100 "u1")
                 []
                 [mkAutopilotRule "r1" "Tax Reserve" 1 "Tax Savings" true
                                  "u1" (Some "a1"%string);
                  mkAutopilotRule "r2" "Rainy day" 1 "Reserve" true
                                  "u1" (Some "a1"%string)])
              30) as (_ & H & _).
  - discriminate.
  - repeat constructor.
  - exact H.
Defined.

(** ** Worked instances *)

Lemma client_totals_match_forecast_witness :
  let acct := mkFinanceAccount "a1" "Blue Ridge Checking" CHECKING "USD"
                               4200 "u1" in
  let r := mkAutopilotRule "r1" "Tax Reserve" 0.5 "Tax Savings" true
                           "u1" (Some "a1"%string) in
  let a := mkAccountGraph acct [] [r] in
  LedgerLoop.autopilotQueued [a]
  == Qsum (map row_autopilot (map (forecast_row 30) [a])).
Proof.
  cbv zeta.
  apply (proj1 (proj2 (client_totals_match_forecast
                         [mkAccountGraph
                            (mkFinanceAccount "a1" "Blue Ridge Checking"
                                              CHECKING "USD" 4200 "u1")
                            []
                            [mkAutopilotRule "r1" "Tax Reserve" 0.5
                                             "Tax Savings" true "u1"
                                             (Some "a1"%string)]]
                         30))).
Defined.

Lemma useApi_state_coherent_witness :
  let s := UseApi.dispatched
             [UseApi.Loading; UseApi.Success 7%nat 1000;
              UseApi.Loading; UseApi.Error "Request failed"%string] in
  UseApi.status s = UseApi.error /\ UseApi.err s <> None.
Proof.
  cbv zeta. split; [reflexivity|].
  apply (proj1 (proj1 (useApi_state_coherent nat
                         [UseApi.Loading; UseApi.Success 7%nat 1000;
                          UseApi.Loading;
                          UseApi.Error "Request failed"%string]))).
  reflexivity.
Defined.

Lemma simulate_verdict_witness :
  Nova.verdict (Nova.simulate "Ship the launch email today" None)
  <> Nova.NeedsReview.
Proof.
  intros H.
  apply (proj1 (proj1 (simulate_verdict "Ship the launch email today" None)))
    in H.
  simpl in H. lia.
Defined.
